(** * command_line_version.mjs: the stock-instruction command-line script

    A shallow embedding of [src/command_line_version.mjs] and the
    properties of its behaviour.

    - [JSString]: JavaScript strings as sequences of UTF-16 code units,
      with [String.prototype.trim] and [String.prototype.replace] for a
      string pattern and a string replacement.
    - [Script]: the script itself: [handleError], [initializeOpenAI],
      [generatePrompt], [main] and the module body, over a small monad
      of processes that log the effects they perform.
    - [SpecEngine]: the instruction processor the specification
      describes, which the script does not contain; it is used only to
      say what the specification expects of a given input file.
    - [Observed], [Prompt], [Scenarios]: the vocabulary of the
      statements, the sentences of the prompt template, and the worlds
      of the examples.
    - [JSStringFacts], [ScriptFacts], [PromptFacts]: lemmas on strings,
      on the paths of a run and on the prompt.
    - [Properties]: the properties of the script, claim by claim. *)

From Stdlib Require Import List NArith ZArith Lia Bool String Ascii.
From Stdlib Require Import DecimalString.
From Stdlib Require QArith.
Import ListNotations.

Set Implicit Arguments.

(* ===================================================================== *)
(** ** JavaScript strings                                                 *)
(* ===================================================================== *)

Module JSString.

Local Open Scope N_scope.

(** A JavaScript string is a sequence of 16-bit code units. *)
Definition code_unit := N.
Definition jsstring := list code_unit.

(** *** Writing string literals

    Literals of the source are written as Rocq strings, which hold the
    UTF-8 bytes of the text; [lit] decodes them to the code units the
    JavaScript engine holds for the same text. *)

Definition utf16_of_code_point (cp : N) : jsstring :=
  if cp <? 65536 then [cp]
  else let c := cp - 65536 in [55296 + c / 1024; 56320 + c mod 1024].

Definition cont (b : N) : N := b mod 64.

Fixpoint utf16_of_utf8 (bs : list N) : jsstring :=
  match bs with
  | [] => []
  | b0 :: t0 =>
    if b0 <? 128 then b0 :: utf16_of_utf8 t0
    else if b0 <? 224 then
      match t0 with
      | b1 :: t1 => utf16_of_code_point ((b0 mod 32) * 64 + cont b1) ++ utf16_of_utf8 t1
      | [] => [65533]
      end
    else if b0 <? 240 then
      match t0 with
      | b1 :: b2 :: t2 =>
        utf16_of_code_point ((b0 mod 16) * 4096 + cont b1 * 64 + cont b2) ++ utf16_of_utf8 t2
      | _ => [65533]
      end
    else
      match t0 with
      | b1 :: b2 :: b3 :: t3 =>
        utf16_of_code_point ((b0 mod 8) * 262144 + cont b1 * 4096 + cont b2 * 64 + cont b3)
          ++ utf16_of_utf8 t3
      | _ => [65533]
      end
  end.

Definition lit (s : string) : jsstring :=
  utf16_of_utf8 (map N_of_ascii (list_ascii_of_string s)).

(** Decimal rendering of a number, as a template literal [`${n}`] gives
    for a non-negative integer. *)
Definition of_N (n : N) : jsstring := lit (NilZero.string_of_uint (N.to_uint n)).

Definition of_Z (z : Z) : jsstring := lit (NilZero.string_of_int (Z.to_int z)).

Definition eqb (a b : jsstring) : bool :=
  if list_eq_dec N.eq_dec a b then true else false.

(** *** [String.prototype.trim]

    [trim] removes WhiteSpace and LineTerminator code units from both
    ends: TAB, VT, FF, SP, NBSP, ZWNBSP, the Unicode space separators,
    and LF, CR, LS, PS. *)
Definition is_js_whitespace (c : code_unit) : bool :=
  (c =? 9) || (c =? 10) || (c =? 11) || (c =? 12) || (c =? 13) || (c =? 32)
  || (c =? 160) || (c =? 5760)
  || ((8192 <=? c) && (c <=? 8202))
  || (c =? 8232) || (c =? 8233) || (c =? 8239) || (c =? 8287)
  || (c =? 12288) || (c =? 65279).

Fixpoint trimStart (s : jsstring) : jsstring :=
  match s with
  | [] => []
  | c :: t => if is_js_whitespace c then trimStart t else s
  end.

Definition trimEnd (s : jsstring) : jsstring := rev (trimStart (rev s)).

Definition trim (s : jsstring) : jsstring := trimEnd (trimStart s).

(** *** [String.prototype.indexOf] from position 0 *)

Fixpoint startsWith (s p : jsstring) {struct p} : bool :=
  match p with
  | [] => true
  | a :: p' =>
    match s with
    | [] => false
    | b :: s' => (a =? b) && startsWith s' p'
    end
  end.

Fixpoint indexOf (s p : jsstring) : option nat :=
  if startsWith s p then Some 0%nat
  else match s with
       | [] => None
       | _ :: t => option_map S (indexOf t p)
       end.

Definition includes (s p : jsstring) : bool :=
  match indexOf s p with Some _ => true | None => false end.

(** *** [GetSubstitution] for a string pattern

    With a string pattern there are no captures and no named captures,
    so of the replacement patterns only [$$], [$&], [$`] and [$'] are
    substituted; [$] followed by digits or by [<] stands for itself. *)

Definition DOLLAR : code_unit := 36.
Definition AMPERSAND : code_unit := 38.
Definition APOSTROPHE : code_unit := 39.
Definition BACKTICK : code_unit := 96.

Section GetSubstitution.
Variable matched : jsstring.
Variable str : jsstring.
Variable position : nat.

Fixpoint GetSubstitution (templateRemainder : jsstring) : jsstring :=
  match templateRemainder with
  | [] => []
  | c :: t =>
    if c =? DOLLAR then
      match t with
      | d :: rest =>
        if d =? DOLLAR then DOLLAR :: GetSubstitution rest
        else if d =? BACKTICK then firstn position str ++ GetSubstitution rest
        else if d =? AMPERSAND then matched ++ GetSubstitution rest
        else if d =? APOSTROPHE then
          skipn (Nat.min (position + List.length matched) (List.length str)) str
            ++ GetSubstitution rest
        else c :: GetSubstitution t
      | [] => [c]
      end
    else c :: GetSubstitution t
  end.
End GetSubstitution.

(** *** [String.prototype.replace (searchString, replaceValue)]

    Both arguments are strings: the first occurrence of [searchString]
    is replaced by the substitution of [replaceValue]; a string without
    an occurrence is returned as it is. *)
Definition replace (string searchString replaceValue : jsstring) : jsstring :=
  match indexOf string searchString with
  | None => string
  | Some position =>
    let preceding := firstn position string in
    let following := skipn (position + List.length searchString) string in
    preceding ++ GetSubstitution searchString string position replaceValue ++ following
  end.

(** A replacement text free of the four substituted patterns. *)
Fixpoint no_pattern (s : jsstring) : bool :=
  match s with
  | [] => true
  | c :: t =>
    (if c =? DOLLAR then
       match t with
       | d :: _ => negb ((d =? DOLLAR) || (d =? BACKTICK) || (d =? AMPERSAND) || (d =? APOSTROPHE))
       | [] => true
       end
     else true) && no_pattern t
  end.

End JSString.

(* ===================================================================== *)
(** ** The script                                                         *)
(* ===================================================================== *)

Module Script.

Import JSString.

(** *** Values the script handles *)

(** A string-valued slot that may be [undefined]: an environment
    variable, an element of [process.argv]. *)
Definition js_opt_string := option jsstring.

(** [!v] for such a slot: [undefined] and the empty string are falsy. *)
Definition falsy (v : js_opt_string) : bool :=
  match v with
  | None => true
  | Some [] => true
  | Some (_ :: _) => false
  end.

(** The [response] of a failed HTTP call; [data] is held as the text
    that [`${error.response.data}`] renders. *)
Record http_response := { status : N; data : jsstring }.

(** A thrown error: [error.response] (absent on errors that are not
    HTTP failures) and [error.message]. *)
Record js_error := { response : option http_response; message : jsstring }.

Record Choice := { text : jsstring }.
Record CreateCompletionResponse := { choices : list Choice }.

Record CreateCompletionRequest := {
  model : jsstring;
  prompt : jsstring;
  max_tokens : N;
  temperature : QArith_base.Q
}.

Record OpenAIApi := { configuration_apiKey : js_opt_string }.

(** What [console.error] is given: a string, or an error object. *)
Inductive printed :=
| PString (s : jsstring)
| PError (e : js_error).

(** *** The world a run happens in, and the effects it performs *)

Record World := {
  env_OPENAI_API_KEY : js_opt_string;   (* process.env, after dotenv.config() *)
  argv : list jsstring;                 (* process.argv *)
  cwd : jsstring;                       (* process.cwd() *)
  readFile_utf8 : jsstring -> jsstring + js_error;
  createCompletion : OpenAIApi -> CreateCompletionRequest
                     -> CreateCompletionResponse + js_error
}.

Inductive event :=
| ReadFile (path : jsstring) (result : jsstring + js_error)
| ApiRequest (client : OpenAIApi) (request : CreateCompletionRequest)
             (result : CreateCompletionResponse + js_error)
| Stdout (line : jsstring)
| Stderr (v : printed)
| ProcessExit (code : Z).

Definition trace := list event.

(** *** Processes

    A computation returns, throws, or has ended the process through
    [process.exit]; it appends the effects it performs to the trace. *)
Inductive outcome (A : Type) :=
| Return (a : A)
| Throw (e : js_error)
| Exited (code : Z).
Arguments Return {A} a.
Arguments Throw {A} e.
Arguments Exited {A} code.

Definition proc (A : Type) := World -> trace -> outcome A * trace.

Definition ret {A} (a : A) : proc A := fun _ tr => (Return a, tr).

Definition bind {A B} (m : proc A) (k : A -> proc B) : proc B :=
  fun w tr =>
    match m w tr with
    | (Return a, tr') => k a w tr'
    | (Throw e, tr') => (Throw e, tr')
    | (Exited c, tr') => (Exited c, tr')
    end.

Definition throw {A} (e : js_error) : proc A := fun _ tr => (Throw e, tr).

(** [try { body } catch (error) { handler }]: a process that has exited
    is not resumed by the handler. *)
Definition try_catch {A} (body : proc A) (handler : js_error -> proc A) : proc A :=
  fun w tr =>
    match body w tr with
    | (Throw e, tr') => handler e w tr'
    | r => r
    end.

Definition emit (e : event) : proc unit := fun _ tr => (Return tt, tr ++ [e]).

Definition ask {A} (f : World -> A) : proc A := fun w tr => (Return (f w), tr).

Declare Scope proc_scope.
Delimit Scope proc_scope with proc.
Notation "x <- m ;; k" := (bind m (fun x => k))
  (at level 61, m at next level, right associativity) : proc_scope.
Notation "m ;; k" := (bind m (fun _ => k))
  (at level 61, right associativity) : proc_scope.
Local Open Scope proc_scope.

Definition when (b : bool) (m : proc unit) : proc unit :=
  if b then m else ret tt.

(** *** Node primitives *)

Definition process_exit {A} (code : Z) : proc A :=
  fun _ tr => (Exited code, tr ++ [ProcessExit code]).

Definition console_error (v : printed) : proc unit := emit (Stderr v).

Definition SPACE : jsstring := [32%N].

(** [console.log(label, value)] for a label without format specifiers
    and a string value: the two, separated by a space, on one line. *)
Definition console_log2 (label value : jsstring) : proc unit :=
  emit (Stdout (label ++ SPACE ++ value)).

Definition dq : string := String (ascii_of_nat 34) EmptyString.

Definition ERR_INVALID_ARG_TYPE : js_error :=
  {| response := None;
     message := lit ("The " ++ dq ++ "path" ++ dq ++
                     " argument must be of type string or an instance of Buffer or URL. Received undefined") |}.

(** [await fs.readFile(path, 'utf8')] *)
Definition fs_readFile (path : js_opt_string) : proc jsstring :=
  match path with
  | None => throw ERR_INVALID_ARG_TYPE
  | Some p =>
    r <- ask (fun w => readFile_utf8 w p) ;;
    emit (ReadFile p r) ;;
    match r with
    | inl content => ret content
    | inr e => throw e
    end
  end.

(** [await openai.createCompletion(request)] *)
Definition openai_createCompletion (openai : OpenAIApi) (request : CreateCompletionRequest)
  : proc CreateCompletionResponse :=
  r <- ask (fun w => createCompletion w openai request) ;;
  emit (ApiRequest openai request r) ;;
  match r with
  | inl completion => ret completion
  | inr e => throw e
  end.

Definition TypeError_reading_text : js_error :=
  {| response := None;
     message := lit "Cannot read properties of undefined (reading 'text')" |}.

(** [completion.data.choices[0].text] *)
Definition first_choice_text (completion : CreateCompletionResponse) : proc jsstring :=
  match choices completion with
  | [] => throw TypeError_reading_text
  | c :: _ => ret (text c)
  end.

(** *** The functions of the script *)

(** [function handleError(message)] *)
Definition handleError {A} (message : printed) : proc A :=
  console_error message ;;
  process_exit 1.

(** [function initializeOpenAI()] *)
Definition initializeOpenAI : proc OpenAIApi :=
  apiKey <- ask env_OPENAI_API_KEY ;;
  when (falsy apiKey)
       (handleError (PString (lit "OpenAI API key not configured"))) ;;
  ret {| configuration_apiKey := apiKey |}.

Definition MARKER : jsstring := lit "Here is the import file:".
Definition LF : jsstring := [10%N].

(** [function generatePrompt(promptTemplate, stockInstructions)] *)
Definition generatePrompt (promptTemplate stockInstructions : jsstring) : jsstring :=
  replace promptTemplate MARKER (MARKER ++ LF ++ stockInstructions).

(** The lines of [const promptTemplate], between the opening backquote
    and the closing one; every line is ended by a line feed. *)
Definition promptTemplate_lines : list string := [
    "";
    "## Objective";
    "Your task is to implement a function for maintaining stock levels. The function should read stock update instructions from an input file and output the updated stock levels in a specific format to the console.";
    "";
    "## Input File Format";
    "- Each new line of the file will represent a separate instruction.";
    "- Lines are terminated by a newline character.";
    "";
    "### Possible Instructions";
    "The file contains three types of instructions:";
    "";
    "1. **set-stock**: Initialize stock levels";
    "   - Syntax: set-stock <sku-id> <stock-level> [<sku-id> <stock-level>] ...";
    "   - Example: set-stock AB-6 100 CD-3 200";
    "";
    "2. **add-stock**: Add to existing stock";
    "   - Syntax: add-stock <sku-id> <stock-amount> [<sku-id> <stock-amount>] ...";
    "   - Example: add-stock AB-6 20 CD-3 10";
    "";
    "3. **order**: Deduct from stock for an order";
    "   - Syntax: order <order-ref> <sku-id> <quantity> [<sku-id> <quantity>] ...";
    "   - Example: order ON-123 AB-6 2 CD-3 1";
    "";
    "## Requirements and Validation";
    "";
    "### SKU-ID Format";
    "- SKU-IDs are alphanumeric strings.";
    "- Length should be between 2 to 10 characters.";
    "";
    "### Quantities and Stock Levels";
    "- Quantities and stock levels must be non-negative integers.";
    "- Maximum allowable stock level is 10,000.";
    "";
    "### Additional Requirements";
    "- SKU must be initialized using set-stock before performing add-stock or order operations on it.";
    "- An order cannot be processed if the required quantity is greater than the available stock level for that SKU.";
    "- All input amounts must be integers.";
    "";
    "### Behaviors and Validations";
    "1. **Initialization Requirement**: SKU must be initialized using set-stock before performing add-stock or order operations on it.";
    "2. **Negative Stock**: If an order operation makes stock level negative, the operation should proceed, but the negative stock level must be flagged for review.";
    "3. **Disallow Negative Inputs**: Commands like set-stock or add-stock should not accept negative amounts.";
    "";
    ("If any of these requirements are not met, terminate the process, return the errors using a " ++ dq ++ "❌" ++ dq ++ " emoji, and do not proceed with outputting the stock levels.");
    "";
    "## Output";
    "- Your code should print the updated stock levels to the console.";
    "- Stock levels should be sorted alphabetically by SKU.";
    "";
    "### Output Format";
    "Your output should consist of two main sections:";
    "1. **Logging**: Log each instruction as it's processed. Use the following format:";
    "    ";
    "    🔍 Processing instruction [number]: [instruction]";
    "   ";
    "2. **Result**: Summarize the final stock levels as follows:";
    "   ";
    "    📊 Final Stock Levels:";
    "    [SKU] [Stock Level]";
    "   ";
    "    Example:";
    "   ";
    "    📊 Final Stock Levels:";
    "    AB-6 118";
    "    CD-3 214";
    "    DE-1 209";
    "    FG-4 300";
    "   ";
    "";
    "## Validation";
    "- Your code should validate the input file and instructions based on these specifications.";
    "- Invalid instructions should be skipped and flagged.";
    "";
    "## Bonus";
    "- Implement logging to keep track of each instruction's effect, as per the logging format described above.";
    "";
    "---";
    "";
    "Please summarize the operations performed on the stock levels based on these instructions in the specified output format.";
    "";
    "---";
    "";
    "Here is the import file:";
    "";
    "If requirements are not met, please don't calculate anything and just return the errors."
  ]%string.

Definition unlines (ls : list string) : string :=
  fold_right (fun l acc => l ++ String (ascii_of_nat 10) acc)%string EmptyString ls.

(** [const promptTemplate] *)
Definition promptTemplate : jsstring := lit (unlines promptTemplate_lines).

Definition completion_request (customizedPrompt : jsstring) : CreateCompletionRequest :=
  {| model := lit "text-davinci-003";
     prompt := customizedPrompt;
     max_tokens := 500;
     temperature := QArith_base.Qmake 6 10 |}.

(** [async function main()], with the client of the module-level
    [const openai].  The script calls [main()] before [promptTemplate]
    is initialised; [main] first reads it after its first [await], when
    the module body has run to its end. *)
Definition main (openai : OpenAIApi) : proc unit :=
  filePathArg <- ask (fun w => nth_error (argv w) 2) ;;
  when (falsy filePathArg)
       (handleError (PString (lit "Please specify the path to the file containing stock instructions."))) ;;
  try_catch
    (stockInstructions <- fs_readFile filePathArg ;;
     when (Nat.eqb (List.length (trim stockInstructions)) 0)
          (handleError (PString (lit "Please enter valid stock instructions in the file."))) ;;
     cwd_ <- ask cwd ;;
     console_log2 (lit "Current working directory:") cwd_ ;;
     let customizedPrompt := generatePrompt promptTemplate stockInstructions in
     completion <- openai_createCompletion openai (completion_request customizedPrompt) ;;
     text_ <- first_choice_text completion ;;
     console_log2 (lit "OpenAI Response:") text_)
    (fun error =>
       match response error with
       | Some r => handleError (PString (of_N (status r) ++ SPACE ++ data r))
       | None => handleError (PString (lit "Error: " ++ message error))
       end).

(** The module body: [const openai = initializeOpenAI();] and
    [main().catch(handleError);]. *)
Definition script : proc unit :=
  openai <- initializeOpenAI ;;
  try_catch (main openai) (fun error => handleError (PError error)).

(** A run of the script: the effects it performs, ended by the exit of
    the process.  A script that runs to its end exits with status 0; an
    exception nobody caught is printed and the status is 1. *)
Definition run (w : World) : trace :=
  match script w [] with
  | (Return _, tr) => tr ++ [ProcessExit 0]
  | (Throw e, tr) => tr ++ [Stderr (PError e); ProcessExit 1]
  | (Exited _, tr) => tr
  end.

(** *** Observations of a run *)

Fixpoint exit_status (tr : trace) : option Z :=
  match tr with
  | [] => None
  | ProcessExit c :: _ => Some c
  | _ :: t => exit_status t
  end.

Definition stdout (tr : trace) : list jsstring :=
  flat_map (fun e => match e with Stdout l => [l] | _ => [] end) tr.

Definition stderr (tr : trace) : list printed :=
  flat_map (fun e => match e with Stderr v => [v] | _ => [] end) tr.

Definition api_requests (tr : trace) : list CreateCompletionRequest :=
  flat_map (fun e => match e with ApiRequest _ r _ => [r] | _ => [] end) tr.

Definition files_read (tr : trace) : list jsstring :=
  flat_map (fun e => match e with ReadFile p _ => [p] | _ => [] end) tr.

End Script.

(* ===================================================================== *)
(** ** The instruction processor of the specification                     *)
(* ===================================================================== *)

(** The specification describes an instruction processor (tokenizer,
    validator, stock applicator, report) that the script does not
    contain: the script hands the instructions to the completion
    service.  [SpecEngine] follows the specification's words (its
    sections 3, 4 and 7), so that what the specification expects of an
    input file can be computed and compared with what the script does.
    Where the specification leaves a choice, the choice made is noted. *)

Module SpecEngine.

Import JSString.
Local Open Scope N_scope.

Inductive Kind := SetStock | AddStock | Order.

(** An instruction: its kind, the order reference of an [order], and
    the (SKU-ID, amount) token pairs in the order they are written. *)
Record Instruction := {
  kind : Kind;
  order_ref : option jsstring;
  pairs : list (jsstring * jsstring)
}.

Inductive ErrorKind :=
| MalformedInstruction
| InvalidSkuFormat
| NegativeInputAmount
| StockLevelExceedsMax
| UninitializedSku.

Definition StockTable := list (jsstring * Z).

(** *** Line tokenizer (section 4.1) *)

Fixpoint split (sep : code_unit -> bool) (s : jsstring) : list jsstring :=
  match s with
  | [] => [[]]
  | c :: t =>
    if sep c then [] :: split sep t
    else match split sep t with
         | [] => [[c]]
         | p :: ps => (c :: p) :: ps
         end
  end.

Definition nonempty (s : jsstring) : bool :=
  match s with [] => false | _ :: _ => true end.

Definition tokens (line : jsstring) : list jsstring :=
  filter nonempty (split is_js_whitespace line).

(** One instruction per line; the line feed ends a line, so that the
    piece after the last line feed is a line only when it is not empty. *)
Definition lines (content : jsstring) : list jsstring :=
  let ps := split (N.eqb 10) content in
  match rev ps with
  | [] :: r => rev r
  | _ => ps
  end.

Fixpoint pair_up (ts : list jsstring) : option (list (jsstring * jsstring)) :=
  match ts with
  | [] => Some []
  | [_] => None
  | sku :: amount :: rest => option_map (cons (sku, amount)) (pair_up rest)
  end.

Definition tokenize (line : jsstring) : Instruction + ErrorKind :=
  match tokens line with
  | [] => inr MalformedInstruction
  | k :: rest =>
    if eqb k (lit "set-stock") then
      match pair_up rest with
      | Some ps => inl {| kind := SetStock; order_ref := None; pairs := ps |}
      | None => inr MalformedInstruction
      end
    else if eqb k (lit "add-stock") then
      match pair_up rest with
      | Some ps => inl {| kind := AddStock; order_ref := None; pairs := ps |}
      | None => inr MalformedInstruction
      end
    else if eqb k (lit "order") then
      match rest with
      | [] => inr MalformedInstruction
      | ref :: rest' =>
        match pair_up rest' with
        | Some ps => inl {| kind := Order; order_ref := Some ref; pairs := ps |}
        | None => inr MalformedInstruction
        end
      end
    else inr MalformedInstruction
  end.

(** *** Instruction validator (section 4.2) *)

Definition is_digit (c : code_unit) : bool := (48 <=? c) && (c <=? 57).

Definition is_alnum (c : code_unit) : bool :=
  is_digit c || ((65 <=? c) && (c <=? 90)) || ((97 <=? c) && (c <=? 122)).

(** The format [^[A-Za-z0-9]{2,10}$]. *)
Definition sku_format_ok (sku : jsstring) : bool :=
  (2 <=? List.length sku)%nat && (List.length sku <=? 10)%nat && forallb is_alnum sku.

Definition digits_value (ds : jsstring) : Z :=
  fold_left (fun acc c => (acc * 10 + Z.of_N (c - 48))%Z) ds 0%Z.

(** An integer amount: digits, with an optional minus sign in front. *)
Definition parse_amount (tok : jsstring) : option Z :=
  match tok with
  | 45 :: ds =>
    if nonempty ds && forallb is_digit ds then Some (- digits_value ds)%Z else None
  | ds =>
    if nonempty ds && forallb is_digit ds then Some (digits_value ds) else None
  end.

Definition MAX_STOCK_LEVEL : Z := 10000.

Fixpoint lookup (t : StockTable) (sku : jsstring) : option Z :=
  match t with
  | [] => None
  | (k, v) :: r => if eqb k sku then Some v else lookup r sku
  end.

Fixpoint store (t : StockTable) (sku : jsstring) (level : Z) : StockTable :=
  match t with
  | [] => [(sku, level)]
  | (k, v) :: r => if eqb k sku then (k, level) :: r else (k, v) :: store r sku level
  end.

Definition current (t : StockTable) (sku : jsstring) : Z :=
  match lookup t sku with Some v => v | None => 0%Z end.

(** Step 2: every amount is an integer and is not negative.  An amount
    that is not an integer is taken as a malformed instruction. *)
Fixpoint amounts (ps : list (jsstring * jsstring)) : list (jsstring * Z) + ErrorKind :=
  match ps with
  | [] => inl []
  | (sku, tok) :: r =>
    match parse_amount tok with
    | None => inr MalformedInstruction
    | Some a =>
      if (a <? 0)%Z then inr NegativeInputAmount
      else match amounts r with
           | inl l => inl ((sku, a) :: l)
           | inr e => inr e
           end
    end
  end.

(** Step 3: the level a SetStock or AddStock results in is at most
    10,000; the pairs of a line are taken in the order written. *)
Fixpoint levels_within_max (k : Kind) (t : StockTable) (items : list (jsstring * Z)) : bool :=
  match items with
  | [] => true
  | (sku, a) :: r =>
    match k with
    | SetStock => (a <=? MAX_STOCK_LEVEL)%Z && levels_within_max k (store t sku a) r
    | AddStock =>
      let l := (current t sku + a)%Z in
      (l <=? MAX_STOCK_LEVEL)%Z && levels_within_max k (store t sku l) r
    | Order => true
    end
  end.

(** Step 4: an AddStock or Order names SKUs of the table only. *)
Definition initialized (k : Kind) (t : StockTable) (items : list (jsstring * Z)) : bool :=
  match k with
  | SetStock => true
  | _ => forallb (fun it => match lookup t (fst it) with Some _ => true | None => false end) items
  end.

Definition validate (t : StockTable) (i : Instruction) : list (jsstring * Z) + ErrorKind :=
  if negb (forallb (fun p => sku_format_ok (fst p)) (pairs i)) then inr InvalidSkuFormat
  else match amounts (pairs i) with
       | inr e => inr e
       | inl items =>
         if negb (levels_within_max (kind i) t items) then inr StockLevelExceedsMax
         else if negb (initialized (kind i) t items) then inr UninitializedSku
         else inl items
       end.

(** *** Stock applicator (section 4.3) *)

Definition apply_item (k : Kind) (t : StockTable) (it : jsstring * Z) : StockTable :=
  let (sku, a) := it in
  match k with
  | SetStock => store t sku a
  | AddStock => store t sku (current t sku + a)
  | Order => store t sku (current t sku - a)
  end.

(** The SKUs an Order leaves at a negative level. *)
Fixpoint apply_items (k : Kind) (t : StockTable) (items : list (jsstring * Z))
  : StockTable * list jsstring :=
  match items with
  | [] => (t, [])
  | it :: r =>
    let t' := apply_item k t it in
    let (t'', ws) := apply_items k t' r in
    match k with
    | Order => if (current t' (fst it) <? 0)%Z then (t'', fst it :: ws) else (t'', ws)
    | _ => (t'', ws)
    end
  end.

(** *** A run over the lines of a file (sections 4.4 and 7)

    Errors are collected with the number of their line; an instruction
    with an error is skipped as a whole and the lines after it are still
    processed. *)
Record State := {
  table : StockTable;
  errors : list (nat * ErrorKind);
  warnings : list (nat * jsstring)
}.

Definition step (st : State) (n : nat) (line : jsstring) : State :=
  match tokenize line with
  | inr e => {| table := table st; errors := errors st ++ [(n, e)]; warnings := warnings st |}
  | inl i =>
    match validate (table st) i with
    | inr e => {| table := table st; errors := errors st ++ [(n, e)]; warnings := warnings st |}
    | inl items =>
      let (t', ws) := apply_items (kind i) (table st) items in
      {| table := t'; errors := errors st;
         warnings := warnings st ++ map (fun sku => (n, sku)) ws |}
    end
  end.

Fixpoint steps (st : State) (n : nat) (ls : list jsstring) : State :=
  match ls with
  | [] => st
  | l :: r => steps (step st n l) (S n) r
  end.

Definition process (content : jsstring) : State :=
  steps {| table := []; errors := []; warnings := [] |} 1 (lines content).

(** A hard error: at least one validation error was recorded. *)
Definition hard_error (content : jsstring) : bool :=
  match errors (process content) with [] => false | _ :: _ => true end.


End SpecEngine.

(* ===================================================================== *)
(** ** Vocabulary of the statements                                       *)
(* ===================================================================== *)

Module Observed.

Import JSString Script.

(** The messages of the script. *)
Definition MSG_API_KEY : jsstring := lit "OpenAI API key not configured".
Definition MSG_FILE_PATH : jsstring :=
  lit "Please specify the path to the file containing stock instructions.".
Definition MSG_EMPTY_FILE : jsstring :=
  lit "Please enter valid stock instructions in the file.".

(** The message the [catch] block of [main] hands to [handleError]. *)
Definition catch_message (error : js_error) : printed :=
  match response error with
  | Some r => PString (of_N (status r) ++ SPACE ++ data r)
  | None => PString (lit "Error: " ++ message error)
  end.

(** The two lines [main] writes to the standard output. *)
Definition cwd_line (w : World) : jsstring :=
  lit "Current working directory:" ++ SPACE ++ cwd w.

Definition response_line (reply : jsstring) : jsstring :=
  lit "OpenAI Response:" ++ SPACE ++ reply.

(** The template around its line [Here is the import file:]. *)
Definition template_position : nat :=
  match indexOf promptTemplate MARKER with Some n => n | None => 0 end.

Definition template_head : jsstring := firstn template_position promptTemplate.

Definition template_tail : jsstring :=
  skipn (template_position + List.length MARKER) promptTemplate.

(** The template with [content] put, as it is, on the line after
    [Here is the import file:]. *)
Definition embed (content : jsstring) : jsstring :=
  template_head ++ MARKER ++ LF ++ content ++ template_tail.

(** A file content that consists of whitespace only, or is empty. *)
Definition blank (content : jsstring) : bool := forallb is_js_whitespace content.

(** The file-path argument, [process.argv[2]]. *)
Definition file_path_arg (w : World) : js_opt_string := nth_error (argv w) 2.

(** The client [initializeOpenAI] builds in [w]. *)
Definition client (w : World) : OpenAIApi :=
  {| configuration_apiKey := env_OPENAI_API_KEY w |}.

(** The request [main] sends for the file content [content]. *)
Definition request_for (content : jsstring) : CreateCompletionRequest :=
  completion_request (generatePrompt promptTemplate content).

(** The failure paths of the script: the message of each, and the
    effects performed before the failure is met. *)
Inductive failure (w : World) : printed -> trace -> Prop :=
| missing_api_key :
    falsy (env_OPENAI_API_KEY w) = true ->
    failure w (PString MSG_API_KEY) []
| missing_argument :
    falsy (env_OPENAI_API_KEY w) = false ->
    falsy (file_path_arg w) = true ->
    failure w (PString MSG_FILE_PATH) []
| file_read_failure path error :
    falsy (env_OPENAI_API_KEY w) = false ->
    file_path_arg w = Some path -> falsy (Some path) = false ->
    readFile_utf8 w path = inr error ->
    failure w (catch_message error) [ReadFile path (inr error)]
| empty_file path content :
    falsy (env_OPENAI_API_KEY w) = false ->
    file_path_arg w = Some path -> falsy (Some path) = false ->
    readFile_utf8 w path = inl content ->
    trim content = [] ->
    failure w (PString MSG_EMPTY_FILE) [ReadFile path (inl content)]
| api_call_failure path content error :
    falsy (env_OPENAI_API_KEY w) = false ->
    file_path_arg w = Some path -> falsy (Some path) = false ->
    readFile_utf8 w path = inl content ->
    trim content <> [] ->
    createCompletion w (client w) (request_for content) = inr error ->
    failure w (catch_message error)
            [ReadFile path (inl content); Stdout (cwd_line w);
             ApiRequest (client w) (request_for content) (inr error)]
| reply_without_choice path content completion :
    falsy (env_OPENAI_API_KEY w) = false ->
    file_path_arg w = Some path -> falsy (Some path) = false ->
    readFile_utf8 w path = inl content ->
    trim content <> [] ->
    createCompletion w (client w) (request_for content) = inl completion ->
    choices completion = [] ->
    failure w (catch_message TypeError_reading_text)
            [ReadFile path (inl content); Stdout (cwd_line w);
             ApiRequest (client w) (request_for content) (inl completion)].

(** The run that gets a reply with a first choice. *)
Definition replied (w : World) (path content : jsstring)
           (completion : CreateCompletionResponse) (c : Choice) : Prop :=
  falsy (env_OPENAI_API_KEY w) = false /\
  file_path_arg w = Some path /\ falsy (Some path) = false /\
  readFile_utf8 w path = inl content /\
  trim content <> [] /\
  createCompletion w (client w) (request_for content) = inl completion /\
  hd_error (choices completion) = Some c.

(** The texts a run writes, on either stream; of an error object, its
    message. *)
Definition all_output (tr : trace) : list jsstring :=
  flat_map (fun e => match e with
                     | Stdout l => [l]
                     | Stderr (PString s) => [s]
                     | Stderr (PError e) => [message e]
                     | _ => []
                     end) tr.

(** Some line of the standard output shows [sku] followed by [level]. *)
Definition reports_level (tr : trace) (sku : jsstring) (level : Z) : bool :=
  existsb (fun l => includes l (sku ++ SPACE ++ of_Z level)) (stdout tr).

(** Some output of the run, on either stream, has the text [word]. *)
Definition mentions (tr : trace) (word : jsstring) : bool :=
  existsb (fun l => includes l word) (all_output tr).

(** [p] occurs in [s] at position [n]. *)
Definition occurs_at (s p : jsstring) (n : nat) : Prop :=
  firstn (List.length p) (skipn n s) = p.

(** The first occurrence of [p] in [s] is at position [n]. *)
Definition first_occurrence (s p : jsstring) (n : nat) : Prop :=
  occurs_at s p n /\ forall i, (i < n)%nat -> ~ occurs_at s p i.

(** A text without a dollar sign. *)
Definition dollar_free (s : jsstring) : bool :=
  forallb (fun c => negb (N.eqb c DOLLAR)) s.

(** A configured run on a file that is read and is not blank: the API
    key [key], the file path [path], the content [content]. *)
Definition ready (w : World) (key path content : jsstring) : Prop :=
  env_OPENAI_API_KEY w = Some key /\ key <> [] /\
  nth_error (argv w) 2 = Some path /\ path <> [] /\
  readFile_utf8 w path = inl content /\
  blank content = false.

End Observed.

(** *** Sentences of the prompt template *)

Module Prompt.

Import JSString Script.


End Prompt.

(** *** Worlds used as examples *)

Module Scenarios.

Import JSString Script.

Definition nl : string := String (ascii_of_nat 10) EmptyString.

Definition command_line : list jsstring :=
  [lit "node"; lit "command_line_version.mjs"; lit "stock.txt"].

Definition one_choice (reply : jsstring) : CreateCompletionResponse :=
  {| choices := [ {| text := reply |} ] |}.

(** A configured run on a file with [content], to which the completion
    service replies with one choice of text [reply]. *)
Definition world_with (content reply : jsstring) : World :=
  {| env_OPENAI_API_KEY := Some (lit "sk-example");
     argv := command_line;
     cwd := lit "/home/user/fy";
     readFile_utf8 := fun _ => inl content;
     createCompletion := fun _ _ => inl (one_choice reply) |}.

Definition no_such_file : js_error :=
  {| response := None; message := lit "ENOENT: no such file or directory" |}.

(** No API key and no file-path argument. *)
Definition world_bare : World :=
  {| env_OPENAI_API_KEY := None;
     argv := [lit "node"; lit "command_line_version.mjs"];
     cwd := lit "/home/user/fy";
     readFile_utf8 := fun _ => inr no_such_file;
     createCompletion := fun _ _ => inl {| choices := [] |} |}.

(** A configured run without a file-path argument. *)
Definition world_no_argument : World :=
  {| env_OPENAI_API_KEY := Some (lit "sk-example");
     argv := [lit "node"; lit "command_line_version.mjs"];
     cwd := lit "/home/user/fy";
     readFile_utf8 := fun _ => inr no_such_file;
     createCompletion := fun _ _ => inl {| choices := [] |} |}.

Definition unauthorized : js_error :=
  {| response := Some {| status := 401; data := lit "[object Object]" |};
     message := lit "Request failed with status code 401" |}.

(** A configured run on a file with [content] whose API call is
    refused with HTTP status 401. *)
Definition world_refused (content : jsstring) : World :=
  {| env_OPENAI_API_KEY := Some (lit "sk-example");
     argv := command_line;
     cwd := lit "/home/user/fy";
     readFile_utf8 := fun _ => inl content;
     createCompletion := fun _ _ => inr unauthorized |}.

(** File contents. *)
Definition file_dollars : jsstring := lit "set-stock AB 5 $$".
Definition file_dollars_sent : jsstring := lit "set-stock AB 5 $".
Definition file_blank : jsstring := lit ("  " ++ nl).
Definition file_spec_scenario : jsstring := lit "add-stock XY-9 5".
Definition file_set_stock : jsstring := lit "set-stock AB 100".

Definition final_levels_reply (line : string) : jsstring :=
  lit ("📊 Final Stock Levels:" ++ nl ++ line).

(** The worlds of the examples. *)
Definition world_dollars : World := world_with file_dollars (lit "ok").
Definition world_blank : World := world_with file_blank (lit "ok").
Definition world_spec_scenario : World :=
  world_with file_spec_scenario (final_levels_reply "XY-9 5").
Definition world_levels : World := world_with file_set_stock (final_levels_reply "AB 100").
Definition choice_levels : Choice := {| text := final_levels_reply "AB 100" |}.

(** A run whose API key is the empty string. *)
Definition world_empty_key : World :=
  {| env_OPENAI_API_KEY := Some [];
     argv := command_line;
     cwd := lit "/home/user/fy";
     readFile_utf8 := fun _ => inl file_set_stock;
     createCompletion := fun _ _ => inl (one_choice (lit "ok")) |}.

(** A configured run whose file cannot be read. *)
Definition world_unreadable : World :=
  {| env_OPENAI_API_KEY := Some (lit "sk-example");
     argv := command_line;
     cwd := lit "/home/user/fy";
     readFile_utf8 := fun _ => inr no_such_file;
     createCompletion := fun _ _ => inl (one_choice (lit "ok")) |}.

Definition connection_reset : js_error :=
  {| response := None; message := lit "read ECONNRESET" |}.

(** A configured run whose API call fails without an HTTP response. *)
Definition world_offline : World :=
  {| env_OPENAI_API_KEY := Some (lit "sk-example");
     argv := command_line;
     cwd := lit "/home/user/fy";
     readFile_utf8 := fun _ => inl file_set_stock;
     createCompletion := fun _ _ => inr connection_reset |}.

(** A configured run whose reply has no choice. *)
Definition world_no_choice : World :=
  {| env_OPENAI_API_KEY := Some (lit "sk-example");
     argv := command_line;
     cwd := lit "/home/user/fy";
     readFile_utf8 := fun _ => inl file_set_stock;
     createCompletion := fun _ _ => inl {| choices := [] |} |}.

(** The world [w] with another command line. *)
Definition with_argv (w : World) (argv' : list jsstring) : World :=
  {| env_OPENAI_API_KEY := env_OPENAI_API_KEY w;
     argv := argv';
     cwd := cwd w;
     readFile_utf8 := readFile_utf8 w;
     createCompletion := createCompletion w |}.

(** A run on a blank file, without an API key. *)
Definition world_blank_without_key : World :=
  {| env_OPENAI_API_KEY := None;
     argv := command_line;
     cwd := lit "/home/user/fy";
     readFile_utf8 := fun _ => inl file_blank;
     createCompletion := fun _ _ => inl (one_choice (lit "ok")) |}.

(** Templates other than the one of the script. *)
Definition template_without_marker : jsstring := lit "Summarise the stock file.".
Definition template_two_markers : jsstring :=
  lit ("Stock." ++ nl ++ "Here is the import file:" ++ nl
       ++ "Again. Here is the import file:" ++ nl).

End Scenarios.

(* ===================================================================== *)
(** ** Lemmas on strings                                                  *)
(* ===================================================================== *)

Module JSStringFacts.

Import JSString.
Local Open Scope N_scope.

Lemma trimStart_blank (s : jsstring) :
  forallb is_js_whitespace s = true -> trimStart s = [].
Proof.
  induction s as [|c t IH]; simpl; [reflexivity|].
  intros H. apply andb_prop in H as [Hc Ht]. rewrite Hc. auto.
Qed.

Lemma trim_blank (s : jsstring) :
  forallb is_js_whitespace s = true -> trim s = [].
Proof.
  intros H. unfold trim, trimEnd. rewrite (trimStart_blank s H). reflexivity.
Qed.

Lemma trimStart_nil_blank (s : jsstring) :
  trimStart s = [] -> forallb is_js_whitespace s = true.
Proof.
  induction s as [|c t IH]; simpl; [reflexivity|].
  destruct (is_js_whitespace c); [auto | discriminate].
Qed.

Lemma trimStart_suffix (s : jsstring) : exists p, s = p ++ trimStart s.
Proof.
  induction s as [|c t [p Hp]]; simpl.
  - exists []. reflexivity.
  - destruct (is_js_whitespace c).
    + exists (c :: p). simpl. congruence.
    + exists []. reflexivity.
Qed.

Lemma trimStart_head (s : jsstring) :
  match trimStart s with
  | [] => True
  | c :: _ => is_js_whitespace c = false
  end.
Proof.
  induction s as [|c t IH]; simpl; [exact I|].
  destruct (is_js_whitespace c) eqn:E; [exact IH | exact E].
Qed.

(** A string whose [trim] is empty consists of whitespace only. *)
Lemma trim_nil_blank (s : jsstring) :
  trim s = [] -> forallb is_js_whitespace s = true.
Proof.
  unfold trim, trimEnd. intros H.
  apply trimStart_nil_blank.
  destruct (trimStart s) as [|c u] eqn:E; [reflexivity|].
  exfalso.
  assert (Hr : trimStart (rev (c :: u)) = []).
  { apply (f_equal (@rev _)) in H. rewrite rev_involutive in H. exact H. }
  apply trimStart_nil_blank in Hr.
  rewrite forallb_forall in Hr.
  pose proof (trimStart_head s) as Hh. rewrite E in Hh.
  rewrite (Hr c) in Hh; [discriminate|].
  apply in_rev. rewrite rev_involutive. left. reflexivity.
Qed.




Lemma GetSubstitution_app (matched str : jsstring) (position : nat) (p s : jsstring) :
  forallb (fun c => negb (c =? DOLLAR)) p = true ->
  GetSubstitution matched str position (p ++ s)
  = p ++ GetSubstitution matched str position s.
Proof.
  induction p as [|c p IH]; [reflexivity|].
  intros H. simpl in H. apply andb_prop in H as [Hc Hp].
  change ((c :: p) ++ s) with (c :: (p ++ s)).
  cbn [GetSubstitution].
  destruct (c =? DOLLAR); [discriminate|].
  rewrite (IH Hp). reflexivity.
Qed.

(** A replacement text without [$$], [$&], [$`] and [$'] is substituted
    by itself. *)
Lemma GetSubstitution_no_pattern (matched str : jsstring) (position : nat) (s : jsstring) :
  no_pattern s = true -> GetSubstitution matched str position s = s.
Proof.
  induction s as [|c t IH]; [reflexivity|].
  intros H. cbn [no_pattern] in H. apply andb_prop in H as [Hc Ht].
  cbn [GetSubstitution].
  destruct (c =? DOLLAR).
  - destruct t as [|d rest]; [reflexivity|].
    apply negb_true_iff in Hc.
    apply orb_false_elim in Hc as [Hc Hap].
    apply orb_false_elim in Hc as [Hc Ham].
    apply orb_false_elim in Hc as [Hd Hb].
    rewrite Hd, Hb, Ham, Hap. rewrite (IH Ht). reflexivity.
  - rewrite (IH Ht). reflexivity.
Qed.

End JSStringFacts.

(* ===================================================================== *)
(** ** The paths of a run                                                 *)
(* ===================================================================== *)

Module ScriptFacts.

Import JSString Script Observed JSStringFacts.

(** Literals are compared as they are written, never decoded, when two
    traces are compared. *)
Opaque lit promptTemplate of_N.

(** Unfolds the process combinators, leaving strings as they are. *)
Ltac step_script :=
  cbv beta iota zeta delta
      [run script main initializeOpenAI bind when ask ret throw try_catch
       handleError console_error console_log2 process_exit emit
       fs_readFile openai_createCompletion first_choice_text
       file_path_arg client request_for].

Ltac with_fact H := rewrite H; step_script.

Lemma handleError_trace (A : Type) (m : printed) (w : World) (tr : trace) :
  @handleError A m w tr = (Exited 1, tr ++ [Stderr m; ProcessExit 1]).
Proof.
  unfold handleError, bind, console_error, emit, process_exit.
  rewrite <- app_assoc. reflexivity.
Qed.

Lemma trim_length_blank (s : jsstring) :
  trim s = [] -> Nat.eqb (List.length (trim s)) 0 = true.
Proof. intros ->. reflexivity. Qed.

Lemma trim_length_not_blank (s : jsstring) :
  trim s <> [] -> Nat.eqb (List.length (trim s)) 0 = false.
Proof. destruct (trim s); [congruence | reflexivity]. Qed.

Lemma script_missing_api_key (w : World) :
  falsy (env_OPENAI_API_KEY w) = true ->
  script w [] = handleError (PString MSG_API_KEY) w [].
Proof.
  intros H. step_script. with_fact H. reflexivity.
Qed.

Lemma script_missing_argument (w : World) :
  falsy (env_OPENAI_API_KEY w) = false ->
  falsy (file_path_arg w) = true ->
  script w [] = handleError (PString MSG_FILE_PATH) w [].
Proof.
  intros H1 H2. unfold file_path_arg in H2. step_script. with_fact H1. with_fact H2. reflexivity.
Qed.

Lemma script_file_read_failure (w : World) (path : jsstring) (error : js_error) :
  falsy (env_OPENAI_API_KEY w) = false ->
  file_path_arg w = Some path -> falsy (Some path) = false ->
  readFile_utf8 w path = inr error ->
  script w [] = handleError (catch_message error) w [ReadFile path (inr error)].
Proof.
  intros H1 H2 H3 H4. unfold file_path_arg in H2.
  step_script. with_fact H1. with_fact H2. with_fact H3. with_fact H4.
  unfold catch_message. destruct (response error); reflexivity.
Qed.

Lemma script_empty_file (w : World) (path content : jsstring) :
  falsy (env_OPENAI_API_KEY w) = false ->
  file_path_arg w = Some path -> falsy (Some path) = false ->
  readFile_utf8 w path = inl content ->
  trim content = [] ->
  script w [] = handleError (PString MSG_EMPTY_FILE) w [ReadFile path (inl content)].
Proof.
  intros H1 H2 H3 H4 H5. unfold file_path_arg in H2.
  step_script. with_fact H1. with_fact H2. with_fact H3. with_fact H4. with_fact (trim_length_blank _ H5). reflexivity.
Qed.

Lemma script_api_call_failure (w : World) (path content : jsstring) (error : js_error) :
  falsy (env_OPENAI_API_KEY w) = false ->
  file_path_arg w = Some path -> falsy (Some path) = false ->
  readFile_utf8 w path = inl content ->
  trim content <> [] ->
  createCompletion w (client w) (request_for content) = inr error ->
  script w [] = handleError (catch_message error) w
                  [ReadFile path (inl content); Stdout (cwd_line w);
                   ApiRequest (client w) (request_for content) (inr error)].
Proof.
  intros H1 H2 H3 H4 H5 H6. unfold file_path_arg in H2.
  unfold client, request_for in H6.
  step_script. with_fact H1. with_fact H2. with_fact H3. with_fact H4. with_fact (trim_length_not_blank _ H5). with_fact H6.
  unfold catch_message. destruct (response error); reflexivity.
Qed.

Lemma script_reply_without_choice (w : World) (path content : jsstring)
      (completion : CreateCompletionResponse) :
  falsy (env_OPENAI_API_KEY w) = false ->
  file_path_arg w = Some path -> falsy (Some path) = false ->
  readFile_utf8 w path = inl content ->
  trim content <> [] ->
  createCompletion w (client w) (request_for content) = inl completion ->
  choices completion = [] ->
  script w [] = handleError (catch_message TypeError_reading_text) w
                  [ReadFile path (inl content); Stdout (cwd_line w);
                   ApiRequest (client w) (request_for content) (inl completion)].
Proof.
  intros H1 H2 H3 H4 H5 H6 H7. unfold file_path_arg in H2.
  unfold client, request_for in H6.
  step_script. with_fact H1. with_fact H2. with_fact H3. with_fact H4. with_fact (trim_length_not_blank _ H5). with_fact H6. with_fact H7.
  reflexivity.
Qed.

Lemma script_replied (w : World) (path content : jsstring)
      (completion : CreateCompletionResponse) (c : Choice) :
  replied w path content completion c ->
  script w [] = (Return tt,
                 [ReadFile path (inl content); Stdout (cwd_line w);
                  ApiRequest (client w) (request_for content) (inl completion);
                  Stdout (response_line (text c))]).
Proof.
  intros (H1 & H2 & H3 & H4 & H5 & H6 & H7). unfold file_path_arg in H2.
  unfold client, request_for in H6.
  destruct (choices completion) as [|c' rest] eqn:H8; [discriminate|].
  injection H7 as ->.
  step_script. with_fact H1. with_fact H2. with_fact H3. with_fact H4. with_fact (trim_length_not_blank _ H5). with_fact H6. with_fact H8.
  reflexivity.
Qed.

(** Every failure path ends in a call of [handleError]. *)
Lemma script_failure (w : World) (m : printed) (tr0 : trace) :
  failure w m tr0 -> script w [] = handleError m w tr0.
Proof.
  intros F. destruct F.
  - apply script_missing_api_key; assumption.
  - apply script_missing_argument; assumption.
  - apply script_file_read_failure; assumption.
  - apply script_empty_file; assumption.
  - apply script_api_call_failure; assumption.
  - apply script_reply_without_choice; assumption.
Qed.

Lemma run_failure (w : World) (m : printed) (tr0 : trace) :
  failure w m tr0 -> run w = tr0 ++ [Stderr m; ProcessExit 1].
Proof.
  intros F. unfold run. rewrite (script_failure F), handleError_trace. reflexivity.
Qed.

Lemma run_replied (w : World) (path content : jsstring)
      (completion : CreateCompletionResponse) (c : Choice) :
  replied w path content completion c ->
  run w = [ReadFile path (inl content); Stdout (cwd_line w);
           ApiRequest (client w) (request_for content) (inl completion);
           Stdout (response_line (text c)); ProcessExit 0].
Proof.
  intros R. unfold run. rewrite (script_replied R). reflexivity.
Qed.

(** What precedes a failure holds no error output and no exit, and at
    most the working-directory line. *)
Lemma failure_before (w : World) (m : printed) (tr0 : trace) :
  failure w m tr0 ->
  stderr tr0 = [] /\ exit_status tr0 = None /\
  (stdout tr0 = [] \/ stdout tr0 = [cwd_line w]).
Proof.
  intros F. destruct F; cbn; auto.
Qed.

Lemma falsy_false_some (v : js_opt_string) :
  falsy v = false -> exists p, v = Some p.
Proof. destruct v as [p|]; [eauto | discriminate]. Qed.

(** A run fails on one of the failure paths, or gets a reply with a
    first choice. *)
Lemma run_classification (w : World) :
  (exists m tr0, failure w m tr0) \/
  (exists path content completion c, replied w path content completion c).
Proof.
  destruct (falsy (env_OPENAI_API_KEY w)) eqn:K.
  { left. eexists _, _. apply missing_api_key; assumption. }
  destruct (falsy (file_path_arg w)) eqn:A.
  { left. eexists _, _. apply missing_argument; assumption. }
  destruct (falsy_false_some _ A) as [path P]. rewrite P in A.
  destruct (readFile_utf8 w path) as [content|error] eqn:R.
  2:{ left. eexists _, _. eapply file_read_failure; eassumption. }
  destruct (trim content) as [|x t] eqn:T.
  { left. eexists _, _. eapply empty_file; eassumption. }
  assert (T' : trim content <> []) by (rewrite T; discriminate).
  destruct (createCompletion w (client w) (request_for content))
    as [completion|error] eqn:C.
  2:{ left. eexists _, _. eapply api_call_failure; eassumption. }
  destruct (choices completion) as [|c rest] eqn:Ch.
  { left. eexists _, _. eapply reply_without_choice; eassumption. }
  right. exists path, content, completion, c.
  unfold replied. rewrite Ch. repeat split; assumption.
Qed.

(** *** What a run shows *)

Lemma observed_failure (w : World) (m : printed) (tr0 : trace) :
  failure w m tr0 ->
  exit_status (run w) = Some 1%Z /\ stderr (run w) = [m] /\
  stdout (run w) = stdout tr0 /\ api_requests (run w) = api_requests tr0 /\
  files_read (run w) = files_read tr0.
Proof.
  intros F. rewrite (run_failure F). destruct F; cbn; auto.
Qed.

Lemma observed_replied (w : World) (path content : jsstring)
      (completion : CreateCompletionResponse) (c : Choice) :
  replied w path content completion c ->
  exit_status (run w) = Some 0%Z /\ stderr (run w) = [] /\
  stdout (run w) = [cwd_line w; response_line (text c)].
Proof.
  intros R. rewrite (run_replied R). cbn. auto.
Qed.

(** *** The events of a run *)

(** A file the run read is the file of the command line, read by a
    configured run. *)
Lemma read_of_run (w : World) (path : jsstring) (result : jsstring + js_error) :
  In (ReadFile path result) (run w) ->
  falsy (env_OPENAI_API_KEY w) = false /\
  file_path_arg w = Some path /\ falsy (Some path) = false /\
  result = readFile_utf8 w path.
Proof.
  intros HIn.
  destruct (run_classification w) as [(m & tr0 & F) | (p & s & cpl & c & R)].
  - rewrite (run_failure F) in HIn.
    destruct F; cbn in HIn;
      repeat (destruct HIn as [HIn | HIn]; try discriminate HIn); try contradiction;
      injection HIn as <- <-; repeat split; congruence.
  - rewrite (run_replied R) in HIn. destruct R as (K & P & NE & Rd & _).
    cbn in HIn.
    repeat (destruct HIn as [HIn | HIn]; try discriminate HIn); try contradiction.
    injection HIn as <- <-. repeat split; congruence.
Qed.

(** A request the run sent is the request for the content of the file
    it read, which is not blank. *)
Lemma api_request_of_run (w : World) (cl : OpenAIApi) (req : CreateCompletionRequest)
      (result : CreateCompletionResponse + js_error) :
  In (ApiRequest cl req result) (run w) ->
  exists path content,
    In (ReadFile path (inl content)) (run w) /\
    falsy (env_OPENAI_API_KEY w) = false /\
    file_path_arg w = Some path /\ falsy (Some path) = false /\
    readFile_utf8 w path = inl content /\
    trim content <> [] /\
    cl = client w /\ req = request_for content /\
    result = createCompletion w (client w) (request_for content).
Proof.
  intros HIn.
  destruct (run_classification w) as [(m & tr0 & F) | (p & s & cpl & c & R)].
  - rewrite (run_failure F) in *.
    destruct F; cbn in HIn |- *;
      repeat (destruct HIn as [HIn | HIn]; try discriminate HIn); try contradiction;
      injection HIn as <- <- <-; eexists _, _;
      (split; [left; reflexivity|]); repeat split; (assumption || congruence).
  - rewrite (run_replied R) in *. destruct R as (K & P & NE & Rd & T & C & _).
    cbn in HIn |- *.
    repeat (destruct HIn as [HIn | HIn]; try discriminate HIn); try contradiction.
    injection HIn as <- <- <-. eexists _, _.
    (split; [left; reflexivity|]); repeat split; (assumption || congruence).
Qed.

End ScriptFacts.

(* ===================================================================== *)
(** ** The prompt                                                         *)
(* ===================================================================== *)

Module PromptFacts.

Import JSString Script Observed Prompt JSStringFacts.
Local Open Scope N_scope.

Lemma eqb_eq (a b : jsstring) : eqb a b = true -> a = b.
Proof. unfold eqb. destruct (list_eq_dec N.eq_dec a b); [auto | discriminate]. Qed.

Lemma eqb_neq (a b : jsstring) : eqb a b = false -> a <> b.
Proof. unfold eqb. destruct (list_eq_dec N.eq_dec a b); [discriminate | auto]. Qed.

(** The template has the line [Here is the import file:]. *)
Lemma template_marker : indexOf promptTemplate MARKER = Some template_position.
Proof. vm_compute. reflexivity. Qed.

(** The template is its head, that line and its tail. *)
Lemma template_split : promptTemplate = template_head ++ MARKER ++ template_tail.
Proof. apply eqb_eq. vm_compute. reflexivity. Qed.

Lemma marker_line_plain :
  forallb (fun c => negb (c =? DOLLAR)) (MARKER ++ LF) = true.
Proof. vm_compute. reflexivity. Qed.

Lemma replace_found (str pat repl : jsstring) (pos : nat) :
  indexOf str pat = Some pos ->
  replace str pat repl
  = firstn pos str ++ GetSubstitution pat str pos repl
      ++ skipn (pos + List.length pat) str.
Proof. intros H. unfold replace. rewrite H. reflexivity. Qed.

Lemma line_after_marker (h m lf g t : jsstring) :
  h ++ ((m ++ lf) ++ g) ++ t = h ++ m ++ lf ++ g ++ t.
Proof. rewrite <- !app_assoc. reflexivity. Qed.

(** The prompt for a file content: the head of the template, the line
    [Here is the import file:], and on the next line the substitution
    of the content, followed by the tail of the template. *)
Lemma generatePrompt_shape (content : jsstring) :
  generatePrompt promptTemplate content
  = template_head ++ MARKER ++ LF
      ++ GetSubstitution MARKER promptTemplate template_position content
      ++ template_tail.
Proof.
  unfold generatePrompt.
  rewrite (replace_found promptTemplate MARKER (MARKER ++ LF ++ content) template_marker).
  rewrite (app_assoc MARKER LF content).
  rewrite (GetSubstitution_app MARKER promptTemplate template_position
                               (MARKER ++ LF) content marker_line_plain).
  unfold template_head, template_tail.
  apply line_after_marker.
Qed.

(** A content without [$$], [$&], [$`] and [$'] is embedded as it is. *)
Theorem generatePrompt_embeds (content : jsstring) :
  no_pattern content = true ->
  generatePrompt promptTemplate content = embed content.
Proof.
  intros H. rewrite generatePrompt_shape.
  rewrite (GetSubstitution_no_pattern MARKER promptTemplate template_position content H).
  unfold embed. reflexivity.
Qed.













End PromptFacts.

(* ===================================================================== *)
(** ** Properties of the script                                           *)
(* ===================================================================== *)

Module Properties.

Import JSString Script Observed Prompt Scenarios.
Import JSStringFacts ScriptFacts PromptFacts.

(** Evaluates a closed observation of a run. *)
Ltac evaluate := vm_compute; reflexivity.

Ltac evaluate_each :=
  repeat match goal with |- _ /\ _ => split end; evaluate.

Lemma world_with_replied (content reply : jsstring) :
  trim content <> [] ->
  replied (world_with content reply) (lit "stock.txt") content
          (one_choice reply) {| text := reply |}.
Proof.
  intros T. unfold replied.
  repeat match goal with |- _ /\ _ => split end; try exact T; evaluate.
Qed.

(** *** The prompt sent to the completion service *)

(** C1. The prompt of a request is meant to be the template with the
    file content embedded as it is on the line after
    [Here is the import file:].  [String.prototype.replace] reads the
    replacement text for patterns, though: for the file content
    [set-stock AB 5 $$] the script sends one request, whose prompt embeds
    [set-stock AB 5 $], with one dollar sign, and so is not the template
    with the file content embedded character for character. *)
Theorem generatePrompt_dollar_pattern :
  api_requests (run world_dollars) = [request_for file_dollars] /\
  prompt (request_for file_dollars) = embed file_dollars_sent /\
  prompt (request_for file_dollars) <> embed file_dollars.
Proof.
  split; [|split].
  - assert (T : trim file_dollars <> []) by (vm_compute; discriminate).
    unfold world_dollars.
    rewrite (run_replied (@world_with_replied file_dollars (lit "ok") T)). reflexivity.
  - apply eqb_eq. evaluate.
  - apply eqb_neq. evaluate.
Qed.

(** *** The reply *)

(** A request the run sent, with its outcome: the request is the one for
    the file the run read, and a reply with a first choice is followed
    by the line of the reply and the end of the run. *)
Lemma request_outcome (w : World) (cl : OpenAIApi) (req : CreateCompletionRequest)
      (result : CreateCompletionResponse + js_error) :
  In (ApiRequest cl req result) (run w) ->
  exists path content,
    In (ReadFile path (inl content)) (run w) /\
    cl = client w /\ req = request_for content /\
    forall completion c,
      result = inl completion -> hd_error (choices completion) = Some c ->
      replied w path content completion c.
Proof.
  intros HIn.
  destruct (api_request_of_run _ _ _ _ HIn)
    as (path & content & HR & K & P & NE & Rd & T & -> & -> & ->).
  exists path, content. repeat split; assumption.
Qed.



(** C2. For every successful reply of the completion service to a
    request of the run, the text of the reply's first choice is printed
    as it is, after the label [OpenAI Response:] and a space, as the last
    output of the run, which then ends with status 0: nothing in the run
    depends on what the text is. *)
Theorem reply_printed_unmodified (w : World) (cl : OpenAIApi)
        (req : CreateCompletionRequest) (completion : CreateCompletionResponse)
        (c : Choice) :
  In (ApiRequest cl req (inl completion)) (run w) ->
  hd_error (choices completion) = Some c ->
  exists before,
    run w = before ++ [ApiRequest cl req (inl completion);
                       Stdout (lit "OpenAI Response:" ++ SPACE ++ text c);
                       ProcessExit 0] /\
    stdout before = [lit "Current working directory:" ++ SPACE ++ cwd w] /\
    stderr (run w) = [].
Proof.
  intros HIn Hc.
  destruct (request_outcome _ _ _ _ HIn) as (path & content & _ & -> & -> & R).
  specialize (R completion c eq_refl Hc).
  rewrite (run_replied R).
  exists [ReadFile path (inl content); Stdout (cwd_line w)].
  repeat split.
Qed.

Lemma reply_printed_unmodified_witness :
  exists before,
    run world_levels
    = before ++ [ApiRequest (client world_levels) (request_for file_set_stock)
                            (inl (one_choice (final_levels_reply "AB 100")));
                 Stdout (lit "OpenAI Response:" ++ SPACE ++ text choice_levels);
                 ProcessExit 0] /\
    stdout before = [lit "Current working directory:" ++ SPACE ++ cwd world_levels] /\
    stderr (run world_levels) = [].
Proof.
  apply (@reply_printed_unmodified world_levels (client world_levels)
           (request_for file_set_stock)
           (one_choice (final_levels_reply "AB 100")) choice_levels).
  - right; right; left. vm_compute. reflexivity.
  - reflexivity.
Defined.

(** *** Blank files and missing arguments *)

(** C8, as the script has it.  In a run with an API key, on a file
    named by the file-path argument and read with a content that
    consists of whitespace only, or is empty, the script writes
    [Please enter valid stock instructions in the file.] to the standard
    error and exits with status 1; it sends no request and prints
    nothing on the standard output. *)
Theorem blank_file_rejected (w : World) (path content : jsstring) :
  falsy (env_OPENAI_API_KEY w) = false ->
  file_path_arg w = Some path -> falsy (Some path) = false ->
  readFile_utf8 w path = inl content ->
  blank content = true ->
  run w = [ReadFile path (inl content);
           Stderr (PString (lit "Please enter valid stock instructions in the file."));
           ProcessExit 1] /\
  exit_status (run w) = Some 1%Z /\
  api_requests (run w) = [] /\
  stdout (run w) = [].
Proof.
  intros K P NE Rd B.
  assert (F : failure w (PString MSG_EMPTY_FILE) [ReadFile path (inl content)]).
  { apply (@empty_file w path content K P NE Rd). apply trim_blank. exact B. }
  rewrite (run_failure F). repeat split.
Qed.

Lemma blank_file_rejected_witness :
  run world_blank
  = [ReadFile (lit "stock.txt") (inl file_blank);
     Stderr (PString (lit "Please enter valid stock instructions in the file."));
     ProcessExit 1] /\
  exit_status (run world_blank) = Some 1%Z /\
  api_requests (run world_blank) = [] /\
  stdout (run world_blank) = [].
Proof.
  apply (@blank_file_rejected world_blank (lit "stock.txt") file_blank).
  - vm_compute. reflexivity.
  - vm_compute. reflexivity.
  - vm_compute. reflexivity.
  - reflexivity.
  - vm_compute. reflexivity.
Defined.

(** C8, as the claim has it, fails: on a blank input file and without
    an API key the run ends on the message of the API key; the file is
    not read and the message of the blank file is not written. *)
Lemma blank_file_without_api_key :
  file_path_arg world_blank_without_key = Some (lit "stock.txt") /\
  readFile_utf8 world_blank_without_key (lit "stock.txt") = inl file_blank /\
  blank file_blank = true /\
  run world_blank_without_key
  = [Stderr (PString (lit "OpenAI API key not configured")); ProcessExit 1] /\
  mentions (run world_blank_without_key) MSG_EMPTY_FILE = false.
Proof.
  evaluate_each.
Qed.

(** C9, as the script has it.  In a run with an API key and without a
    file-path argument (none, or an empty one) the script writes
    [Please specify the path to the file containing stock instructions.]
    to the standard error and exits with status 1, and no file is read. *)
Theorem missing_argument_rejected (w : World) :
  falsy (env_OPENAI_API_KEY w) = false ->
  falsy (file_path_arg w) = true ->
  run w = [Stderr (PString (lit "Please specify the path to the file containing stock instructions."));
           ProcessExit 1] /\
  exit_status (run w) = Some 1%Z /\
  files_read (run w) = [].
Proof.
  intros K A.
  rewrite (run_failure (missing_argument w K A)). repeat split.
Qed.

Lemma missing_argument_rejected_witness :
  run world_no_argument
  = [Stderr (PString (lit "Please specify the path to the file containing stock instructions."));
     ProcessExit 1] /\
  exit_status (run world_no_argument) = Some 1%Z /\
  files_read (run world_no_argument) = [].
Proof.
  apply (@missing_argument_rejected world_no_argument).
  - vm_compute. reflexivity.
  - vm_compute. reflexivity.
Defined.

(** C9, as the claim has it, fails: without a file-path argument and
    without an API key the run ends on the message of the API key, and
    the message of the file path is not written. *)
Lemma missing_argument_without_api_key :
  file_path_arg world_bare = None /\
  run world_bare = [Stderr (PString (lit "OpenAI API key not configured")); ProcessExit 1] /\
  mentions (run world_bare) MSG_FILE_PATH = false.
Proof.
  evaluate_each.
Qed.

(** *** Failures *)

(** C10. Every failure path of the script (a missing API key, a missing
    argument, a file that cannot be read, an empty file, a failed API
    call, a reply without a choice) ends in a call of [handleError] with
    the message of the path; [handleError] writes the message to the
    standard error and ends the process with status 1; and a run that
    does not exit with status 0, or that writes to the standard error,
    is on one of these paths. *)
Theorem failures_route_through_handleError (w : World) :
  (forall m tr0, failure w m tr0 ->
     script w [] = handleError m w tr0 /\
     stderr tr0 = [] /\ exit_status tr0 = None) /\
  (forall (m : printed) (tr : trace),
     @handleError unit m w tr = (Exited 1, tr ++ [Stderr m; ProcessExit 1])) /\
  (forall m tr0, failure w m tr0 ->
     run w = tr0 ++ [Stderr m; ProcessExit 1] /\
     stderr (run w) = [m] /\ exit_status (run w) = Some 1%Z) /\
  (exit_status (run w) <> Some 0%Z \/ stderr (run w) <> [] ->
   exists m tr0, failure w m tr0).
Proof.
  split; [|split; [|split]].
  - intros m tr0 F. split; [exact (script_failure F)|].
    destruct (failure_before F) as (X & Y & _). auto.
  - intros m tr. apply handleError_trace.
  - intros m tr0 F. split; [exact (run_failure F)|].
    destruct (observed_failure F) as (X & Y & _). auto.
  - intros H.
    destruct (run_classification w) as [F | (p & s & cpl & c & R)]; [exact F|].
    destruct (observed_replied R) as (X & Y & _).
    destruct H as [H | H]; contradiction.
Qed.

Lemma failures_route_through_handleError_witness :
  script world_bare [] = handleError (PString MSG_API_KEY) world_bare [] /\
  run world_bare = [] ++ [Stderr (PString MSG_API_KEY); ProcessExit 1] /\
  exit_status (run world_bare) = Some 1%Z.
Proof.
  destruct (@failures_route_through_handleError world_bare) as (A & _ & B & _).
  assert (F : failure world_bare (PString MSG_API_KEY) []).
  { apply missing_api_key. vm_compute. reflexivity. }
  destruct (A _ _ F) as (A1 & _). destruct (B _ _ F) as (B1 & _ & B3).
  auto.
Defined.

(** *** Validation is left to the completion service *)

(** C3, as the script has it.  On a failure path the run exits with
    status 1, with the message of the path as its only error output and
    the standard output the path had before (nothing, or the
    working-directory line when the failure is at the API call); a run
    that gets a reply with a first choice exits with status 0 after the
    working-directory line and the line of the reply; and every run is
    one or the other.  The instructions of the file are not examined. *)
Theorem exit_status_by_failure (w : World) :
  (forall m tr0, failure w m tr0 ->
     exit_status (run w) = Some 1%Z /\ stderr (run w) = [m] /\
     stdout (run w) = stdout tr0 /\
     (stdout tr0 = [] \/ stdout tr0 = [cwd_line w])) /\
  (forall path content completion c, replied w path content completion c ->
     exit_status (run w) = Some 0%Z /\ stderr (run w) = [] /\
     stdout (run w) = [cwd_line w; response_line (text c)]) /\
  ((exists m tr0, failure w m tr0) \/
   (exists path content completion c, replied w path content completion c)).
Proof.
  split; [|split].
  - intros m tr0 F.
    destruct (observed_failure F) as (X & Y & Z & _).
    destruct (failure_before F) as (_ & _ & S). auto.
  - intros path content completion c R. exact (observed_replied R).
  - apply run_classification.
Qed.

Lemma exit_status_by_failure_witness :
  exit_status (run world_spec_scenario) = Some 0%Z /\
  stderr (run world_spec_scenario) = [] /\
  stdout (run world_spec_scenario)
  = [cwd_line world_spec_scenario;
     response_line (text {| text := final_levels_reply "XY-9 5" |})].
Proof.
  destruct (@exit_status_by_failure world_spec_scenario) as (_ & R & _).
  apply (R (lit "stock.txt") file_spec_scenario (one_choice (final_levels_reply "XY-9 5"))).
  apply world_with_replied. vm_compute. discriminate.
Defined.

(** C3, as the claim has it, fails: the file [add-stock XY-9 5] has a
    hard validation error in the specification's sense, and the run on
    it exits with status 0, writes no error, and prints the stock level
    the reply gives. *)
Lemma validation_error_exits_zero :
  SpecEngine.hard_error file_spec_scenario = true /\
  files_read (run world_spec_scenario) = [lit "stock.txt"] /\
  exit_status (run world_spec_scenario) = Some 0%Z /\
  stderr (run world_spec_scenario) = [] /\
  reports_level (run world_spec_scenario) (lit "XY-9") 5 = true.
Proof.
  evaluate_each.
Qed.













End Properties.

(* ===================================================================== *)
(** ** Occurrences of a pattern                                           *)
(* ===================================================================== *)

Module OccurrenceFacts.

Import JSString Script Observed JSStringFacts.

Lemma startsWith_firstn (s p : jsstring) :
  startsWith s p = true <-> firstn (List.length p) s = p.
Proof.
  revert s. induction p as [|a p IH]; intros s.
  - simpl. split; reflexivity.
  - destruct s as [|b s]; simpl.
    + split; discriminate.
    + rewrite andb_true_iff, N.eqb_eq, IH. split.
      * intros [-> ->]. reflexivity.
      * intros E. injection E as -> E. auto.
Qed.

Lemma startsWith_occurs (s p : jsstring) :
  startsWith s p = true <-> occurs_at s p 0.
Proof. unfold occurs_at. simpl. apply startsWith_firstn. Qed.

Lemma occurs_at_cons (c : code_unit) (s p : jsstring) (i : nat) :
  occurs_at (c :: s) p (S i) <-> occurs_at s p i.
Proof. unfold occurs_at. simpl. reflexivity. Qed.

(** [indexOf] finds the first occurrence, and finds none only when
    there is none. *)
Lemma indexOf_spec (s p : jsstring) :
  match indexOf s p with
  | Some n => first_occurrence s p n
  | None => forall i, ~ occurs_at s p i
  end.
Proof.
  induction s as [|c t IH].
  - simpl. destruct (startsWith [] p) eqn:E.
    + split; [apply startsWith_occurs; exact E | intros i Hi; inversion Hi].
    + intros i O. unfold occurs_at in O.
      rewrite skipn_nil, firstn_nil in O. subst p. discriminate E.
  - simpl. destruct (startsWith (c :: t) p) eqn:E.
    + split; [apply startsWith_occurs; exact E | intros i Hi; inversion Hi].
    + assert (N0 : ~ occurs_at (c :: t) p 0).
      { intros O. apply startsWith_occurs in O. congruence. }
      destruct (indexOf t p) as [m|]; simpl.
      * destruct IH as [O Min]. split.
        -- apply occurs_at_cons. exact O.
        -- intros [|j] Hj; [exact N0|].
           rewrite occurs_at_cons. apply Min. apply Nat.succ_lt_mono. exact Hj.
      * intros [|j]; [exact N0|]. rewrite occurs_at_cons. apply IH.
Qed.

Lemma first_occurrence_by_indexOf (s p : jsstring) (n : nat) :
  indexOf s p = Some n -> first_occurrence s p n.
Proof. intros H. pose proof (indexOf_spec s p) as S. rewrite H in S. exact S. Qed.

Lemma no_occurrence_by_indexOf (s p : jsstring) :
  indexOf s p = None -> forall i, ~ occurs_at s p i.
Proof. intros H. pose proof (indexOf_spec s p) as S. rewrite H in S. exact S. Qed.

Lemma indexOf_first_occurrence (s p : jsstring) (n : nat) :
  first_occurrence s p n -> indexOf s p = Some n.
Proof.
  intros [O Min]. pose proof (indexOf_spec s p) as S.
  destruct (indexOf s p) as [m|].
  - destruct S as [Om Minm]. f_equal.
    destruct (Nat.lt_trichotomy m n) as [L | [E | L]].
    + exfalso. exact (Min m L Om).
    + exact E.
    + exfalso. exact (Minm n L O).
  - exfalso. exact (S n O).
Qed.

Lemma indexOf_no_occurrence (s p : jsstring) :
  (forall i, ~ occurs_at s p i) -> indexOf s p = None.
Proof.
  intros H. pose proof (indexOf_spec s p) as S.
  destruct (indexOf s p) as [m|]; [|reflexivity].
  exfalso. exact (H m (proj1 S)).
Qed.

(** A string is what precedes an occurrence, the occurrence, and what
    follows it. *)
Lemma occurs_at_split (s p : jsstring) (n : nat) :
  occurs_at s p n ->
  s = firstn n s ++ p ++ skipn (n + List.length p) s.
Proof.
  unfold occurs_at. intros O.
  rewrite <- (firstn_skipn n s) at 1. f_equal.
  rewrite <- (firstn_skipn (List.length p) (skipn n s)) at 1.
  rewrite O. f_equal. rewrite skipn_skipn. f_equal. apply Nat.add_comm.
Qed.

Lemma skipn_min_length (A : Type) (k : nat) (l : list A) :
  skipn (Nat.min k (List.length l)) l = skipn k l.
Proof.
  destruct (Nat.le_ge_cases k (List.length l)) as [L | G].
  - rewrite (Nat.min_l _ _ L). reflexivity.
  - rewrite (Nat.min_r _ _ G). rewrite skipn_all. symmetry. apply skipn_all2. exact G.
Qed.

End OccurrenceFacts.

(* ===================================================================== *)
(** ** [generatePrompt] on any template                                   *)
(* ===================================================================== *)

Module GeneratePromptFacts.

Import JSString Script Observed Scenarios.
Import JSStringFacts PromptFacts OccurrenceFacts.
Local Open Scope N_scope.

Lemma marker_length : List.length MARKER = 24%nat.
Proof. vm_compute. reflexivity. Qed.

(** The prompt for a template in which the marker line first occurs at
    [n]: the template up to the marker, the marker, a line feed, the
    substitution of the content, and the template after the marker. *)
Lemma generatePrompt_at (T content : jsstring) (n : nat) :
  first_occurrence T MARKER n ->
  generatePrompt T content
  = firstn n T ++ MARKER ++ LF ++ GetSubstitution MARKER T n content
      ++ skipn (n + List.length MARKER) T.
Proof.
  intros F. unfold generatePrompt.
  rewrite (replace_found T MARKER (MARKER ++ LF ++ content) (indexOf_first_occurrence F)).
  rewrite (app_assoc MARKER LF content).
  rewrite (GetSubstitution_app MARKER T n (MARKER ++ LF) content marker_line_plain).
  apply line_after_marker.
Qed.

(** X1. A template without the line [Here is the import file:] is
    returned as it is: the stock instructions are left out of the
    prompt. *)
Theorem generatePrompt_without_marker (T content : jsstring) :
  (forall i, ~ occurs_at T MARKER i) ->
  generatePrompt T content = T.
Proof.
  intros H. unfold generatePrompt, replace.
  rewrite (indexOf_no_occurrence H). reflexivity.
Qed.

Lemma generatePrompt_without_marker_witness :
  generatePrompt template_without_marker file_set_stock = template_without_marker.
Proof.
  apply (@generatePrompt_without_marker template_without_marker file_set_stock).
  apply no_occurrence_by_indexOf. vm_compute. reflexivity.
Defined.

(** X2. In a template where the line [Here is the import file:] occurs,
    a content without [$$], [$&], [$`] and [$'] is put, as it is, on the
    line after the first occurrence, and nowhere else: what precedes
    the first occurrence and what follows it are those of the
    template. *)
Theorem generatePrompt_first_occurrence (T content : jsstring) (n : nat) :
  first_occurrence T MARKER n ->
  no_pattern content = true ->
  T = firstn n T ++ MARKER ++ skipn (n + List.length MARKER) T /\
  generatePrompt T content
  = firstn n T ++ MARKER ++ LF ++ content ++ skipn (n + List.length MARKER) T.
Proof.
  intros F NP. split.
  - apply occurs_at_split. exact (proj1 F).
  - rewrite (generatePrompt_at content F).
    rewrite (GetSubstitution_no_pattern MARKER T n content NP). reflexivity.
Qed.

Lemma generatePrompt_first_occurrence_witness :
  template_two_markers
  = firstn 7 template_two_markers ++ MARKER
      ++ skipn (7 + List.length MARKER) template_two_markers /\
  generatePrompt template_two_markers file_set_stock
  = firstn 7 template_two_markers ++ MARKER ++ LF ++ file_set_stock
      ++ skipn (7 + List.length MARKER) template_two_markers.
Proof.
  apply (@generatePrompt_first_occurrence template_two_markers file_set_stock 7).
  - apply first_occurrence_by_indexOf. vm_compute. reflexivity.
  - vm_compute. reflexivity.
Defined.

(** X3. The four replacement patterns in a content are not embedded but
    substituted: after a text without dollar sign and before a text
    without pattern, [$$] becomes one dollar sign, [$&] the marker line,
    [$`] the template before the marker line, and [$'] the template
    after it. *)
Theorem generatePrompt_patterns (T a b : jsstring) (n : nat) :
  first_occurrence T MARKER n ->
  dollar_free a = true ->
  no_pattern b = true ->
  let head := firstn n T in
  let tail := skipn (n + List.length MARKER) T in
  generatePrompt T (a ++ [DOLLAR; DOLLAR] ++ b)
  = head ++ MARKER ++ LF ++ (a ++ [DOLLAR] ++ b) ++ tail /\
  generatePrompt T (a ++ [DOLLAR; AMPERSAND] ++ b)
  = head ++ MARKER ++ LF ++ (a ++ MARKER ++ b) ++ tail /\
  generatePrompt T (a ++ [DOLLAR; BACKTICK] ++ b)
  = head ++ MARKER ++ LF ++ (a ++ head ++ b) ++ tail /\
  generatePrompt T (a ++ [DOLLAR; APOSTROPHE] ++ b)
  = head ++ MARKER ++ LF ++ (a ++ tail ++ b) ++ tail.
Proof.
  intros F Da Nb head tail. subst head tail.
  unfold dollar_free in Da.
  rewrite !(generatePrompt_at _ F).
  rewrite !(GetSubstitution_app MARKER T n a _ Da).
  cbn [GetSubstitution app].
  rewrite (GetSubstitution_no_pattern MARKER T n b Nb).
  rewrite skipn_min_length.
  repeat match goal with |- _ /\ _ => split end; reflexivity.
Qed.

Lemma generatePrompt_patterns_witness :
  generatePrompt promptTemplate (lit "set-stock AB 5 " ++ [DOLLAR; DOLLAR] ++ [])
  = firstn template_position promptTemplate ++ MARKER ++ LF
      ++ (lit "set-stock AB 5 " ++ [DOLLAR] ++ [])
      ++ skipn (template_position + List.length MARKER) promptTemplate.
Proof.
  assert (F : first_occurrence promptTemplate MARKER template_position).
  { apply first_occurrence_by_indexOf. vm_compute. reflexivity. }
  assert (Da : dollar_free (lit "set-stock AB 5 ") = true).
  { vm_compute. reflexivity. }
  exact (proj1 (@generatePrompt_patterns promptTemplate (lit "set-stock AB 5 ") []
                  template_position F Da eq_refl)).
Defined.

End GeneratePromptFacts.

(* ===================================================================== *)
(** ** Runs of the script                                                 *)
(* ===================================================================== *)

Module RunFacts.

Import JSString Script Observed Scenarios.
Import JSStringFacts ScriptFacts PromptFacts.

Lemma truthy_key (key : jsstring) : key <> [] -> falsy (Some key) = false.
Proof. destruct key; [congruence | reflexivity]. Qed.

Lemma not_blank_trim (content : jsstring) :
  blank content = false -> trim content <> [].
Proof.
  intros B T. apply trim_nil_blank in T. unfold blank in B. congruence.
Qed.

(** A ready run passes the three guards of the script. *)
Lemma ready_guards (w : World) (key path content : jsstring) :
  ready w key path content ->
  falsy (env_OPENAI_API_KEY w) = false /\
  file_path_arg w = Some path /\ falsy (Some path) = false /\
  readFile_utf8 w path = inl content /\ trim content <> [] /\
  client w = {| configuration_apiKey := Some key |}.
Proof.
  intros (K & NK & P & NP & R & B).
  repeat match goal with |- _ /\ _ => split end.
  - rewrite K. apply truthy_key. exact NK.
  - exact P.
  - apply truthy_key. exact NP.
  - exact R.
  - apply not_blank_trim. exact B.
  - unfold client. rewrite K. reflexivity.
Qed.

(** X4. The prompt of every request of a run is the head of the
    template, the line [Here is the import file:], a line feed, a middle
    part, and the tail of the template, whatever the file holds; for the
    content of a file without [$$], [$&], [$`] and [$'] the middle part
    is the content, as it was read (not trimmed), and the prompt is one
    code unit and the content longer than the template. *)
Theorem prompt_of_request (w : World) (cl : OpenAIApi)
        (req : CreateCompletionRequest)
        (result : CreateCompletionResponse + js_error) :
  In (ApiRequest cl req result) (run w) ->
  exists path content middle,
    In (ReadFile path (inl content)) (run w) /\
    prompt req = template_head ++ MARKER ++ LF ++ middle ++ template_tail /\
    (no_pattern content = true ->
     middle = content /\
     List.length (prompt req)
     = (List.length promptTemplate + 1 + List.length content)%nat).
Proof.
  intros HIn.
  destruct (api_request_of_run _ _ _ _ HIn)
    as (path & content & HR & _ & _ & _ & _ & _ & _ & -> & _).
  exists path, content,
    (GetSubstitution MARKER promptTemplate template_position content).
  split; [exact HR|]. split.
  - apply generatePrompt_shape.
  - intros NP.
    rewrite (GetSubstitution_no_pattern MARKER promptTemplate template_position content NP).
    split; [reflexivity|].
    change (prompt (request_for content)) with (generatePrompt promptTemplate content).
    rewrite (generatePrompt_embeds content NP). unfold embed.
    pose proof (f_equal (@List.length _) template_split) as L.
    rewrite !length_app in L. rewrite !length_app.
    change (List.length LF) with 1%nat. lia.
Qed.

Lemma prompt_of_request_witness :
  exists path content middle,
    In (ReadFile path (inl content)) (run world_levels) /\
    prompt (request_for file_set_stock)
    = template_head ++ MARKER ++ LF ++ middle ++ template_tail /\
    (no_pattern content = true ->
     middle = content /\
     List.length (prompt (request_for file_set_stock))
     = (List.length promptTemplate + 1 + List.length content)%nat).
Proof.
  apply (@prompt_of_request world_levels (client world_levels)
           (request_for file_set_stock)
           (inl (one_choice (final_levels_reply "AB 100")))).
  right; right; left. vm_compute. reflexivity.
Defined.

(** X5. A run reads at most one file and sends at most one request; a
    request is sent only for the content read from the file that the
    command line names. *)
Theorem one_file_one_request (w : World) :
  (List.length (files_read (run w)) <= 1)%nat /\
  (List.length (api_requests (run w)) <= 1)%nat /\
  (forall req, In req (api_requests (run w)) ->
     exists path content,
       files_read (run w) = [path] /\
       nth_error (argv w) 2 = Some path /\
       readFile_utf8 w path = inl content /\
       req = request_for content).
Proof.
  destruct (run_classification w) as [(m & tr0 & F) | (p & s & cpl & c & R)].
  - destruct (observed_failure F) as (_ & _ & _ & A & Rd).
    rewrite A, Rd.
    destruct F; cbn; repeat split; try lia; try contradiction;
      intros req [<- | []]; eexists _, _; repeat split; eassumption.
  - rewrite (run_replied R). destruct R as (_ & P & _ & Rd & _).
    cbn. repeat split; try lia.
    intros req [<- | []]. eexists _, _; repeat split; eassumption.
Qed.

(** X6. A run ends with the exit of the process, as its last effect and
    its only exit; the exit status is 0 or 1; it is 0 exactly when
    nothing was written to the standard error; and at most one message
    is written there. *)
Theorem run_ends_with_exit (w : World) :
  exists tr0 code,
    run w = tr0 ++ [ProcessExit code] /\
    exit_status tr0 = None /\
    (code = 0 \/ code = 1)%Z /\
    (code = 0%Z <-> stderr (run w) = []) /\
    (List.length (stderr (run w)) <= 1)%nat.
Proof.
  destruct (run_classification w) as [(m & tr0 & F) | (p & s & cpl & c & R)].
  - exists (tr0 ++ [Stderr m]), 1%Z.
    destruct (observed_failure F) as (_ & E & _).
    rewrite E. rewrite (run_failure F).
    split; [rewrite <- app_assoc; reflexivity|].
    split; [destruct F; reflexivity|].
    split; [right; reflexivity|].
    split; [split; discriminate | cbn; lia].
  - exists [ReadFile p (inl s); Stdout (cwd_line w);
            ApiRequest (client w) (request_for s) (inl cpl);
            Stdout (response_line (text c))], 0%Z.
    destruct (observed_replied R) as (_ & E & _).
    rewrite E. rewrite (run_replied R).
    split; [reflexivity|]. split; [reflexivity|].
    split; [left; reflexivity|].
    split; [split; reflexivity | cbn; lia].
Qed.

(** X7. Without an API key, the variable unset or set to the empty
    string, a run is the message [OpenAI API key not configured] on the
    standard error and the exit with status 1: the command line is not
    looked at, no file is read and no request is sent. *)
Theorem missing_api_key_rejected (w : World) :
  env_OPENAI_API_KEY w = None \/ env_OPENAI_API_KEY w = Some [] ->
  run w = [Stderr (PString (lit "OpenAI API key not configured")); ProcessExit 1].
Proof.
  intros H.
  assert (K : falsy (env_OPENAI_API_KEY w) = true).
  { destruct H as [-> | ->]; reflexivity. }
  rewrite (run_failure (missing_api_key w K)). reflexivity.
Qed.

Lemma missing_api_key_rejected_witness :
  run world_empty_key
  = [Stderr (PString (lit "OpenAI API key not configured")); ProcessExit 1].
Proof.
  apply (@missing_api_key_rejected world_empty_key).
  right. reflexivity.
Defined.

(** X8. When the file named on the command line cannot be read, the
    error having no HTTP response, a configured run is the failed read,
    the message [Error: ] followed by the message of the error on the
    standard error, and the exit with status 1; nothing is printed on
    the standard output and no request is sent. *)
Theorem unreadable_file_rejected (w : World) (key path : jsstring) (error : js_error) :
  env_OPENAI_API_KEY w = Some key -> key <> [] ->
  nth_error (argv w) 2 = Some path -> path <> [] ->
  readFile_utf8 w path = inr error ->
  response error = None ->
  run w = [ReadFile path (inr error);
           Stderr (PString (lit "Error: " ++ message error));
           ProcessExit 1].
Proof.
  intros K NK P NP R Resp.
  assert (F : failure w (catch_message error) [ReadFile path (inr error)]).
  { apply file_read_failure; try assumption.
    - rewrite K. apply truthy_key. exact NK.
    - apply truthy_key. exact NP. }
  rewrite (run_failure F). unfold catch_message. rewrite Resp. reflexivity.
Qed.

Lemma unreadable_file_rejected_witness :
  run world_unreadable
  = [ReadFile (lit "stock.txt") (inr no_such_file);
     Stderr (PString (lit "Error: " ++ message no_such_file));
     ProcessExit 1].
Proof.
  apply (@unreadable_file_rejected world_unreadable (lit "sk-example")
           (lit "stock.txt") no_such_file).
  - reflexivity.
  - vm_compute. discriminate.
  - vm_compute. reflexivity.
  - vm_compute. discriminate.
  - reflexivity.
  - reflexivity.
Defined.

(** X9. When the API call of a ready run fails, the run is the read, the
    working-directory line, the request, one message on the standard
    error and the exit with status 1.  The message is the HTTP status in
    decimal, a space and the response data when the error has a
    response (its own message is then not shown), and [Error: ] followed
    by the message of the error when it has none. *)
Theorem api_failure_reported (w : World) (key path content : jsstring)
        (error : js_error) :
  ready w key path content ->
  createCompletion w {| configuration_apiKey := Some key |} (request_for content)
  = inr error ->
  run w = [ReadFile path (inl content);
           Stdout (lit "Current working directory:" ++ SPACE ++ cwd w);
           ApiRequest {| configuration_apiKey := Some key |} (request_for content)
                      (inr error);
           Stderr (PString match response error with
                           | Some r => of_N (status r) ++ SPACE ++ data r
                           | None => lit "Error: " ++ message error
                           end);
           ProcessExit 1].
Proof.
  intros Rd C.
  destruct (ready_guards Rd) as (K & P & NP & R & T & Cl).
  rewrite <- Cl in C |- *.
  rewrite (run_failure (@api_call_failure w path content error K P NP R T C)).
  unfold catch_message. destruct (response error); reflexivity.
Qed.

Lemma api_failure_reported_witness :
  run (world_refused file_set_stock)
  = [ReadFile (lit "stock.txt") (inl file_set_stock);
     Stdout (lit "Current working directory:" ++ SPACE ++ cwd (world_refused file_set_stock));
     ApiRequest {| configuration_apiKey := Some (lit "sk-example") |}
                (request_for file_set_stock) (inr unauthorized);
     Stderr (PString match response unauthorized with
                     | Some r => of_N (status r) ++ SPACE ++ data r
                     | None => lit "Error: " ++ message unauthorized
                     end);
     ProcessExit 1].
Proof.
  apply (@api_failure_reported (world_refused file_set_stock) (lit "sk-example")
           (lit "stock.txt") file_set_stock unauthorized).
  - unfold ready.
    repeat match goal with |- _ /\ _ => split end;
      try (vm_compute; (reflexivity || discriminate)).
  - reflexivity.
Defined.

(** X10. When the reply to a ready run has no choice, the run does not
    end well: after the read, the working-directory line and the
    request, it writes one message that starts with [Error: ] to the
    standard error and exits with status 1, and prints no reply. *)
Theorem reply_without_choice_rejected (w : World) (key path content : jsstring)
        (completion : CreateCompletionResponse) :
  ready w key path content ->
  createCompletion w {| configuration_apiKey := Some key |} (request_for content)
  = inl completion ->
  choices completion = [] ->
  exists m,
    run w = [ReadFile path (inl content);
             Stdout (lit "Current working directory:" ++ SPACE ++ cwd w);
             ApiRequest {| configuration_apiKey := Some key |} (request_for content)
                        (inl completion);
             Stderr (PString (lit "Error: " ++ m));
             ProcessExit 1].
Proof.
  intros Rd C Ch.
  destruct (ready_guards Rd) as (K & P & NP & R & T & Cl).
  rewrite <- Cl in C |- *.
  rewrite (run_failure (@reply_without_choice w path content completion K P NP R T C Ch)).
  exists (message TypeError_reading_text). reflexivity.
Qed.

Lemma reply_without_choice_rejected_witness :
  exists m,
    run world_no_choice
    = [ReadFile (lit "stock.txt") (inl file_set_stock);
       Stdout (lit "Current working directory:" ++ SPACE ++ cwd world_no_choice);
       ApiRequest {| configuration_apiKey := Some (lit "sk-example") |}
                  (request_for file_set_stock) (inl {| choices := [] |});
       Stderr (PString (lit "Error: " ++ m));
       ProcessExit 1].
Proof.
  apply (@reply_without_choice_rejected world_no_choice (lit "sk-example")
           (lit "stock.txt") file_set_stock {| choices := [] |}).
  - unfold ready.
    repeat match goal with |- _ /\ _ => split end;
      try (vm_compute; (reflexivity || discriminate)).
  - reflexivity.
  - reflexivity.
Defined.

(** X11. The blank check is the only check on the content of the file:
    for the content of a file the run read, the run sends a request,
    the one for that content, exactly when the content is not blank. *)
Theorem request_sent_iff_not_blank (w : World) (path content : jsstring) :
  In (ReadFile path (inl content)) (run w) ->
  (api_requests (run w) = [request_for content] <-> blank content = false).
Proof.
  intros HIn.
  destruct (read_of_run _ _ _ HIn) as (K & P & NE & Rd). symmetry in Rd.
  split.
  - intros A. destruct (blank content) eqn:B; [|reflexivity].
    assert (F : failure w (PString MSG_EMPTY_FILE) [ReadFile path (inl content)]).
    { eapply empty_file; eauto. apply trim_blank. exact B. }
    destruct (observed_failure F) as (_ & _ & _ & A' & _).
    rewrite A' in A. discriminate A.
  - intros B. pose proof (not_blank_trim _ B) as T.
    destruct (createCompletion w (client w) (request_for content))
      as [completion | error] eqn:C.
    + destruct (choices completion) as [|c rest] eqn:Ch.
      * rewrite (run_failure (@reply_without_choice w path content completion K P NE Rd T C Ch)).
        reflexivity.
      * assert (R : replied w path content completion c).
        { unfold replied. rewrite Ch. repeat split; assumption. }
        rewrite (run_replied R). reflexivity.
    + rewrite (run_failure (@api_call_failure w path content error K P NE Rd T C)). reflexivity.
Qed.

Lemma request_sent_iff_not_blank_witness :
  api_requests (run world_levels) = [request_for file_set_stock]
  <-> blank file_set_stock = false.
Proof.
  apply (@request_sent_iff_not_blank world_levels (lit "stock.txt") file_set_stock).
  left. vm_compute. reflexivity.
Defined.

(** X12. Every request of a run is sent with a non-empty API key, the
    one of the environment, for the model [text-davinci-003] with at
    most 500 tokens and the temperature 0.6: nothing of a request but
    its prompt depends on the file. *)
Theorem request_parameters (w : World) (cl : OpenAIApi)
        (req : CreateCompletionRequest)
        (result : CreateCompletionResponse + js_error) :
  In (ApiRequest cl req result) (run w) ->
  model req = lit "text-davinci-003" /\
  max_tokens req = 500%N /\
  temperature req = QArith_base.Qmake 6 10 /\
  exists key,
    key <> [] /\ env_OPENAI_API_KEY w = Some key /\
    configuration_apiKey cl = Some key.
Proof.
  intros HIn.
  destruct (api_request_of_run _ _ _ _ HIn)
    as (path & content & _ & K & _ & _ & _ & _ & -> & -> & _).
  repeat match goal with |- _ /\ _ => split end; try reflexivity.
  unfold client. cbn [configuration_apiKey].
  destruct (env_OPENAI_API_KEY w) as [[|k key]|]; try discriminate K.
  exists (k :: key). repeat split. discriminate.
Qed.

Lemma request_parameters_witness :
  model (request_for file_set_stock) = lit "text-davinci-003" /\
  max_tokens (request_for file_set_stock) = 500%N /\
  temperature (request_for file_set_stock) = QArith_base.Qmake 6 10 /\
  exists key,
    key <> [] /\ env_OPENAI_API_KEY world_levels = Some key /\
    configuration_apiKey (client world_levels) = Some key.
Proof.
  apply (@request_parameters world_levels (client world_levels)
           (request_for file_set_stock)
           (inl (one_choice (final_levels_reply "AB 100")))).
  right; right; left. vm_compute. reflexivity.
Defined.

Lemma cwd_line_with_argv (w : World) (argv' : list jsstring) :
  cwd_line (with_argv w argv') = cwd_line w.
Proof. unfold cwd_line, with_argv. cbn [cwd]. reflexivity. Qed.

Lemma client_with_argv (w : World) (argv' : list jsstring) :
  client (with_argv w argv') = client w.
Proof. unfold client, with_argv. cbn [env_OPENAI_API_KEY]. reflexivity. Qed.

Lemma failure_with_argv (w : World) (argv' : list jsstring) (m : printed) (tr0 : trace) :
  nth_error argv' 2 = nth_error (argv w) 2 ->
  failure w m tr0 -> failure (with_argv w argv') m tr0.
Proof.
  intros H F.
  assert (P : file_path_arg (with_argv w argv') = file_path_arg w) by exact H.
  destruct F as [K | K A | path error K A NE R | path content K A NE R T
                 | path content error K A NE R T C
                 | path content completion K A NE R T C Ch].
  - apply missing_api_key. exact K.
  - apply missing_argument; [exact K | rewrite P; exact A].
  - apply file_read_failure; [exact K | rewrite P; exact A | exact NE | exact R].
  - eapply empty_file; [exact K | rewrite P; exact A | exact NE | exact R | exact T].
  - rewrite <- (cwd_line_with_argv w argv'), <- (client_with_argv w argv').
    rewrite <- (client_with_argv w argv') in C.
    apply (@api_call_failure (with_argv w argv') path content error K);
      [rewrite P; exact A | exact NE | exact R | exact T | exact C].
  - rewrite <- (cwd_line_with_argv w argv'), <- (client_with_argv w argv').
    rewrite <- (client_with_argv w argv') in C.
    apply (@reply_without_choice (with_argv w argv') path content completion K);
      [rewrite P; exact A | exact NE | exact R | exact T | exact C | exact Ch].
Qed.

Lemma replied_with_argv (w : World) (argv' : list jsstring) (path content : jsstring)
      (completion : CreateCompletionResponse) (c : Choice) :
  nth_error argv' 2 = nth_error (argv w) 2 ->
  replied w path content completion c ->
  replied (with_argv w argv') path content completion c.
Proof.
  intros H (K & P & NE & Rd & T & C & Ch).
  rewrite <- (client_with_argv w argv') in C.
  unfold replied. split; [exact K|]. split; [|split; [exact NE|]].
  - unfold file_path_arg. cbn [argv with_argv]. rewrite H. exact P.
  - split; [exact Rd|]. split; [exact T|]. split; [exact C | exact Ch].
Qed.

(** X13. Of the command line a run uses its third element only: two
    command lines with the same third element, or both without one, give
    the same run. *)
Theorem other_arguments_ignored (w : World) (argv' : list jsstring) :
  nth_error argv' 2 = nth_error (argv w) 2 ->
  run (with_argv w argv') = run w.
Proof.
  intros H.
  destruct (run_classification w) as [(m & tr0 & F) | (p & s & cpl & c & R)].
  - rewrite (run_failure F), (run_failure (failure_with_argv argv' H F)). reflexivity.
  - rewrite (run_replied R), (run_replied (replied_with_argv argv' H R)).
    rewrite cwd_line_with_argv, client_with_argv. reflexivity.
Qed.

Lemma other_arguments_ignored_witness :
  run (with_argv world_levels [lit "/usr/bin/node"; lit "fy.mjs"; lit "stock.txt"; lit "--verbose"])
  = run world_levels.
Proof.
  apply (@other_arguments_ignored world_levels
           [lit "/usr/bin/node"; lit "fy.mjs"; lit "stock.txt"; lit "--verbose"]).
  reflexivity.
Defined.

(** X14. When the reply to a ready run has choices, the run is the
    read, the working-directory line, the request, the line
    [OpenAI Response: ] with the text of the first choice, and the exit
    with status 0; the choices after the first are not shown. *)
Theorem first_choice_printed (w : World) (key path content : jsstring)
        (c : Choice) (others : list Choice) :
  ready w key path content ->
  createCompletion w {| configuration_apiKey := Some key |} (request_for content)
  = inl {| choices := c :: others |} ->
  run w = [ReadFile path (inl content);
           Stdout (lit "Current working directory:" ++ SPACE ++ cwd w);
           ApiRequest {| configuration_apiKey := Some key |} (request_for content)
                      (inl {| choices := c :: others |});
           Stdout (lit "OpenAI Response:" ++ SPACE ++ text c);
           ProcessExit 0].
Proof.
  intros Rd C.
  destruct (ready_guards Rd) as (K & P & NP & R & T & Cl).
  rewrite <- Cl in C |- *.
  assert (Rp : replied w path content {| choices := c :: others |} c).
  { unfold replied. repeat match goal with |- _ /\ _ => split end;
      try assumption. reflexivity. }
  rewrite (run_replied Rp). reflexivity.
Qed.

Lemma first_choice_printed_witness :
  run world_levels
  = [ReadFile (lit "stock.txt") (inl file_set_stock);
     Stdout (lit "Current working directory:" ++ SPACE ++ cwd world_levels);
     ApiRequest {| configuration_apiKey := Some (lit "sk-example") |}
                (request_for file_set_stock)
                (inl {| choices := choice_levels :: [] |});
     Stdout (lit "OpenAI Response:" ++ SPACE ++ text choice_levels);
     ProcessExit 0].
Proof.
  apply (@first_choice_printed world_levels (lit "sk-example")
           (lit "stock.txt") file_set_stock choice_levels []).
  - unfold ready.
    repeat match goal with |- _ /\ _ => split end;
      try (vm_compute; (reflexivity || discriminate)).
  - reflexivity.
Defined.

End RunFacts.
